(** * The used-vehicle dashboard: loader and filter pipeline of [app.py]

    The script reads [data/vehicles_us.csv] into a pandas frame, validates
    and coerces it ([load_data]), derives a filter specification from the
    sidebar controls, selects the matching rows with boolean masks and shows
    four metrics.

    Conventions of the embedding:
    - a frame is a list of column labels and a list of rows, a row maps a
      column label to its cell;
    - a cell is missing ([NaN]), a number or a text; numbers are the
      rationals that finite floats denote, in canonical form so that two
      cells hold the same number exactly when they are equal; rounding and
      the infinities of float64 are outside the model;
    - pandas' reader and its conversion of a cell to a number are library
      code: the reader's outcome is the content of the modelled file
      system, the conversion is a parameter of the loader;
    - an exception is a value of [exn], a script is a function from the
      widgets already on the page to the widgets on the page afterwards
      and either a result or the exception that stopped it;
    - a chart is the call that builds it, a control returns what the
      visitor has set or else its default; the texts of the exceptions the
      host framework and the plotting library raise are parameters; what
      the plotting library draws and the memoisation of the loader by the
      host framework are not part of the model. *)

From Stdlib Require Import QArith Qcanon.
From stdpp Require Import base option list numbers strings gmap pretty.

Local Open Scope string_scope.
Local Open Scope list_scope.
Local Open Scope Z_scope.

(** ** Cells, rows, frames *)

Inductive cell : Type :=
  | NaN
  | Num (q : Qc)
  | Str (s : string).

Global Instance cell_eq_dec : EqDecision cell.
Proof. solve_decision. Defined.

Record DataFrame : Type := mkFrame {
  columns : list string;
  rows : list (gmap string cell)
}.

(** [len(df)] *)
Definition len (df : DataFrame) : nat := length (rows df).

(** The cell of row [r] in column [c]. *)
Definition cell_at (c : string) (r : gmap string cell) : cell :=
  default NaN (r !! c).

(** [c in df.columns] *)
Definition has_column (c : string) (df : DataFrame) : bool :=
  bool_decide (c ∈ columns df).

(** [df[c]] read as a Series; the script reads only labels it has checked. *)
Definition get_column (c : string) (df : DataFrame) : list cell :=
  cell_at c <$> rows df.

(** [df[c] = s]: the Series is written row by row, a new label is appended. *)
Definition set_column (c : string) (s : list cell) (df : DataFrame) : DataFrame :=
  {| columns := if has_column c df then columns df else columns df ++ [c];
     rows := zip_with (λ r v, <[c := v]> r) (rows df) s |}.

(** [isna] on one cell. *)
Definition isna (c : cell) : bool :=
  match c with NaN => true | _ => false end.

(** [df[mask]]: the rows whose mask entry is [True], in order. *)
Fixpoint select_rows (rs : list (gmap string cell)) (mask : list bool)
  : list (gmap string cell) :=
  match rs, mask with
  | r :: rs', b :: mask' =>
      if b then r :: select_rows rs' mask' else select_rows rs' mask'
  | _, _ => []
  end.

Definition boolean_index (df : DataFrame) (mask : list bool) : DataFrame :=
  {| columns := columns df; rows := select_rows (rows df) mask |}.

(** ** Exceptions and scripts *)

Inductive exn : Type :=
  | FileNotFoundError
  | KeyError (keys : list string)
  | ValueError (msg : string)
  | OtherError (msg : string).

(** Python's [repr] of a list of plain labels, [['a', 'b']]. *)
Fixpoint repr_items (l : list string) : string :=
  match l with
  | [] => String.EmptyString
  | [x] => "'" +:+ x +:+ "'"
  | x :: l' => "'" +:+ x +:+ "', " +:+ repr_items l'
  end.

Definition repr_list (l : list string) : string := "[" +:+ repr_items l +:+ "]".

(** [str(e)] *)
Definition str_exn (e : exn) : string :=
  match e with
  | FileNotFoundError => "[Errno 2] No such file or directory"
  | KeyError keys => repr_list keys
  | ValueError msg => msg
  | OtherError msg => msg
  end.

(** What the page shows. *)
Inductive metric_value : Type :=
  | VInt (z : Z)
  | VStr (s : string).

Inductive widget : Type :=
  | StError (msg : string)
  | StMetric (label : string) (value : metric_value).

Definition script (A : Type) : Type := list widget → list widget * (exn + A).

Global Instance script_ret : MRet script := λ A a page, (page, inr a).

Global Instance script_bind : MBind script := λ A B k m page,
  match m page with
  | (page', inr a) => k a page'
  | (page', inl e) => (page', inl e)
  end.

(** A widget call appends to the page. *)
Definition show (w : widget) : script unit := λ page, (page ++ [w], inr tt).

(** A pure computation that may raise. *)
Definition lift {A} (x : exn + A) : script A := λ page, (page, x).

(** [try: body / except e: handler(e)] *)
Definition try_except {A} (body : script A) (handler : exn → script A) : script A :=
  λ page,
    match body page with
    | (page', inr a) => (page', inr a)
    | (page', inl e) => handler e page'
    end.

(** ** The loader *)

Inductive file : Type :=
  | Unreadable (detail : string)
  | Table (t : DataFrame).

(** [pd.read_csv(path)]: a missing file raises [FileNotFoundError], a file
    the reader rejects raises some other exception, a table is returned. *)
Definition read_csv (fs : gmap string file) (path : string) : exn + DataFrame :=
  match fs !! path with
  | None => inl FileNotFoundError
  | Some (Unreadable detail) => inl (OtherError detail)
  | Some (Table t) => inr t
  end.

(** [df.dropna(subset=...)]: a label of [subset] that is not a column raises
    [KeyError] with the absent labels; otherwise the rows with no missing
    cell under [subset] are kept. *)
Definition dropna (subset : list string) (df : DataFrame) : exn + DataFrame :=
  match filter (λ c, c ∉ columns df) subset with
  | [] =>
      inr (boolean_index df
             ((λ r, forallb (λ c, negb (isna (cell_at c r))) subset) <$> rows df))
  | absent => inl (KeyError absent)
  end.

Definition numeric_cols : list string := ["model_year"; "odometer"; "price"].

(** What [pd.to_numeric] makes of one cell is library code. A text becomes
    the number it parses to, if it parses. A number is returned as a value
    of the numeric type of the column: as it is when the reader typed the
    column as numbers, as the nearest float when it comes from a column of
    objects, as an integer too long for 64 bits does. A value of the
    numeric type is returned as it is, and a parsed text is one. *)
Record numeric_conversion : Type := {
  parse_number : string → option Qc;
  to_float : Qc → Qc;
  to_float_idem : ∀ q, to_float (to_float q) = to_float q;
  parse_number_float : ∀ s q, parse_number s = Some q → to_float q = q
}.

Section Loader.

Variable pd : numeric_conversion.

(** [pd.to_numeric(., errors='coerce')] on one cell: a text that does not
    parse becomes missing. *)
Definition to_numeric (c : cell) : cell :=
  match c with
  | Str s => match parse_number pd s with Some q => Num q | None => NaN end
  | NaN => NaN
  | Num q => Num (to_float pd q)
  end.

(** One turn of the loop of lines 29-31. *)
Definition coerce_column (df : DataFrame) (col : string) : DataFrame :=
  if has_column col df
  then set_column col (to_numeric <$> get_column col df) df
  else df.

Definition load_data (fs : gmap string file) : script (option DataFrame) :=
  try_except
    (df ← lift (read_csv fs "data/vehicles_us.csv");
     if negb (has_column "model_year" df) then
       show (StError "Error: La columna 'model_year' no existe en el dataset.");;
       mret None
     else
       let df := foldl coerce_column df numeric_cols in
       out ← lift (dropna ["model_year"; "odometer"; "price"] df);
       mret (Some out))
    (λ e,
       match e with
       | FileNotFoundError =>
           show (StError "Error: Archivo 'vehicles_us.csv' no encontrado en la carpeta 'data'");;
           mret None
       | _ =>
           show (StError ("Error al cargar datos: " +:+ str_exn e));;
           mret None
       end).

End Loader.

(** ** Series of numbers

    A coerced column holds numbers and missing cells only; the reductions
    skip the missing ones, and the reduction of no number at all is the
    float NaN, here [None]. *)

Definition numbers (s : list cell) : list Qc :=
  omap (λ c, match c with Num q => Some q | _ => None end) s.

Definition Qc_min (a b : Qc) : Qc := if decide (a ≤ b)%Qc then a else b.
Definition Qc_max (a b : Qc) : Qc := if decide (a ≤ b)%Qc then b else a.

(** [Series.min()], [Series.max()], [Series.mean()]; the mean is the exact
    one, the rounding of the float sum and quotient is not modelled. *)
Definition series_min (s : list cell) : option Qc :=
  match numbers s with
  | [] => None
  | x :: l => Some (foldl Qc_min x l)
  end.

Definition series_max (s : list cell) : option Qc :=
  match numbers s with
  | [] => None
  | x :: l => Some (foldl Qc_max x l)
  end.

Definition series_mean (s : list cell) : option Qc :=
  match numbers s with
  | [] => None
  | x :: l => Some (foldl Qcplus x l / Qc_of_Z (Z.of_nat (length (x :: l))))%Qc
  end.

(** [int(x)] on a float: truncation towards zero, [ValueError] on NaN. An
    infinite float, on which [int] raises [OverflowError], is no value of
    the model. *)
Definition py_int (x : option Qc) : exn + Z :=
  match x with
  | None => inl (ValueError "cannot convert float NaN to integer")
  | Some q => inr (Z.quot (Qnum q) (Z.pos (Qden q)))
  end.

(** [Series.unique()]: the distinct cells in order of first appearance. *)
Fixpoint unique_from (seen s : list cell) : list cell :=
  match s with
  | [] => []
  | c :: s' =>
      if bool_decide (c ∈ seen) then unique_from seen s'
      else c :: unique_from (c :: seen) s'
  end.

Definition unique (s : list cell) : list cell := unique_from [] s.

(** ** The sidebar: the filter specification

    The two ends of the year range are numbers; those that the slider
    returns are whole. *)

Record FilterSpec : Type := mkSpec {
  selected_years : Qc * Qc;
  selected_fuels : list cell;
  selected_conditions : list cell
}.

(** Lines 52-53: the two ends of the year slider. *)
Definition min_year (df : DataFrame) : exn + Z :=
  py_int (series_min (get_column "model_year" df)).

Definition max_year (df : DataFrame) : exn + Z :=
  py_int (series_max (get_column "model_year" df)).

Definition fuel_types (df : DataFrame) : list cell := unique (get_column "fuel" df).

Definition conditions (df : DataFrame) : list cell := unique (get_column "condition" df).

(** ** The filter pipeline *)

(** [Series.between(left, right)], both ends included; a missing cell
    compares false. *)
Definition in_years (left right : Qc) (c : cell) : bool :=
  match c with
  | Num q => bool_decide (left ≤ q)%Qc && bool_decide (q ≤ right)%Qc
  | _ => false
  end.

Definition between (s : list cell) (left right : Qc) : list bool :=
  in_years left right <$> s.

(** [Series.isin(values)]; pandas takes a missing cell to be in a selection
    that holds the missing value. *)
Definition isin (s : list cell) (values : list cell) : list bool :=
  (λ c, bool_decide (c ∈ values)) <$> s.

(** Lines 77-83. *)
Definition filtered_df (df : DataFrame) (spec : FilterSpec) : DataFrame :=
  let filtered_df :=
    boolean_index df
      (between (get_column "model_year" df)
         (fst (selected_years spec)) (snd (selected_years spec))) in
  let filtered_df :=
    if has_column "fuel" df
    then boolean_index filtered_df
           (isin (get_column "fuel" filtered_df) (selected_fuels spec))
    else filtered_df in
  let filtered_df :=
    if has_column "condition" df
    then boolean_index filtered_df
           (isin (get_column "condition" filtered_df) (selected_conditions spec))
    else filtered_df in
  filtered_df.

(** ** The metrics *)

(** Rounding to the nearest integer, ties to even, of a number that is not
    negative. *)
Definition round_half_even (q : Qc) : Z :=
  let n := Qnum q in
  let d := Z.pos (Qden q) in
  let f := n / d in
  match 2 * (n mod d) ?= d with
  | Lt => f
  | Gt => f + 1
  | Eq => if Z.even f then f else f + 1
  end.

Definition comma : Ascii.ascii := Ascii.ascii_of_nat 44.

(** The thousands separators, on the digits from the last to the first. *)
Fixpoint commas (l : list Ascii.ascii) : list Ascii.ascii :=
  match l with
  | a :: b :: c :: (_ :: _) as rest => a :: b :: c :: comma :: commas rest
  | _ => l
  end.

(** [f"{x:,.0f}"] *)
Definition format_comma_0f (x : option Qc) : string :=
  match x with
  | None => "nan"
  | Some q =>
      let sign := if decide (q < 0)%Qc then "-" else String.EmptyString in
      let magnitude := round_half_even (if decide (q < 0)%Qc then (- q)%Qc else q) in
      sign +:+
      String.string_of_list_ascii
        (reverse (commas (reverse (String.list_ascii_of_string (pretty magnitude)))))
  end.

(** Lines 88-91. *)
Definition metrics (filtered_df : DataFrame) : script unit :=
  show (StMetric "Vehículos" (VInt (Z.of_nat (len filtered_df))));;
  avg_year ← lift (py_int (series_mean (get_column "model_year" filtered_df)));
  show (StMetric "Año promedio" (VInt avg_year));;
  show (StMetric "Precio promedio"
          (VStr ("$" +:+ format_comma_0f (series_mean (get_column "price" filtered_df)))));;
  show (StMetric "Km promedio"
          (VStr (format_comma_0f (series_mean (get_column "odometer" filtered_df)) +:+ " km"))).

(** ** Names and objects

    The top level of the script binds names to frame objects. Indexing a
    frame with a mask builds a new object; an assignment rebinds the name
    on its left and leaves every object as it is. [None] is a name that is
    not bound. *)

Record memory : Type := mkMemory {
  objects : gmap nat DataFrame;
  names : gmap string nat
}.

Definition value_of (name : string) (m : memory) : option DataFrame :=
  l ← names m !! name; objects m !! l.

(** [target = source[mask(source)]] *)
Definition assign_selection (target source : string)
    (mask : DataFrame → list bool) (m : memory) : option memory :=
  d ← value_of source m;
  let l := fresh (dom (objects m)) in
  Some {| objects := <[l := boolean_index d (mask d)]> (objects m);
          names := <[target := l]> (names m) |}.

(** Lines 77-83 as statements. *)
Definition apply_filters (spec : FilterSpec) (m : memory) : option memory :=
  m ← assign_selection "filtered_df" "df"
         (λ d, between (get_column "model_year" d)
                 (fst (selected_years spec)) (snd (selected_years spec))) m;
  df ← value_of "df" m;
  m ← (if has_column "fuel" df
       then assign_selection "filtered_df" "filtered_df"
              (λ d, isin (get_column "fuel" d) (selected_fuels spec)) m
       else Some m);
  df ← value_of "df" m;
  if has_column "condition" df
  then assign_selection "filtered_df" "filtered_df"
         (λ d, isin (get_column "condition" d) (selected_conditions spec)) m
  else Some m.

(** ** The vocabulary of the specification *)

(** A Dataset: the three required columns exist and every row holds a
    number in each of them. *)
Definition is_number (c : cell) : bool :=
  match c with Num _ => true | _ => false end.

Definition Dataset (df : DataFrame) : Prop :=
  numeric_cols ⊆ columns df ∧
  Forall (λ r, Forall (λ c, is_number (cell_at c r)) numeric_cols) (rows df).

Global Instance Dataset_dec df : Decision (Dataset df).
Proof. unfold Dataset. apply _. Defined.

Definition modelYear (r : gmap string cell) : option Qc :=
  match cell_at "model_year" r with
  | Num q => Some q
  | _ => None
  end.

(** The year of a record lies in the closed interval from [lo] to [hi]. *)
Definition year_within (lo hi : Qc) (r : gmap string cell) : Prop :=
  match modelYear r with
  | Some y => (lo ≤ y)%Qc ∧ (y ≤ hi)%Qc
  | None => False
  end.

Global Instance year_within_dec lo hi r : Decision (year_within lo hi r).
Proof. unfold year_within. destruct (modelYear r); apply _. Defined.

(** Membership of a record in the FilteredView, as the data model words it. *)
Definition in_view (df : DataFrame) (spec : FilterSpec) (r : gmap string cell) : Prop :=
  year_within (fst (selected_years spec)) (snd (selected_years spec)) r
  ∧ ("fuel" ∉ columns df ∨ cell_at "fuel" r ∈ selected_fuels spec)
  ∧ ("condition" ∉ columns df ∨ cell_at "condition" r ∈ selected_conditions spec).

Global Instance in_view_dec df spec r : Decision (in_view df spec r).
Proof. unfold in_view. apply _. Defined.

(** The derived slider range covers the years of every record. *)
Definition full_range_representable (df : DataFrame) : Prop :=
  ∃ lo hi, min_year df = inr lo ∧ max_year df = inr hi
           ∧ Forall (year_within (Qc_of_Z lo) (Qc_of_Z hi)) (rows df).

Section LoaderVocabulary.

Variable pd : numeric_conversion.

(** A row with its three required cells coerced. *)
Definition coerce_row (r : gmap string cell) : gmap string cell :=
  <["price" := to_numeric pd (cell_at "price" r)]>
    (<["odometer" := to_numeric pd (cell_at "odometer" r)]>
       (<["model_year" := to_numeric pd (cell_at "model_year" r)]> r)).

(** Every required cell of the row coerces to a number. *)
Definition parsable (r : gmap string cell) : Prop :=
  Forall (λ c, to_numeric pd (cell_at c r) ≠ NaN) numeric_cols.

Global Instance parsable_dec r : Decision (parsable r).
Proof. unfold parsable. apply _. Defined.

(** The outcome of the attempt to coerce one cell, as the specification
    words it: the number the cell is coerced to, or none when the cell is
    missing or fails coercion. It is written from the library's conversion
    alone and does not go through the loader. *)
Definition coerced_value (c : cell) : option Qc :=
  match c with
  | NaN => None
  | Num q => Some (to_float pd q)
  | Str s => parse_number pd s
  end.

(** A row none of whose three required fields is missing after coercion. *)
Definition usable (r : gmap string cell) : Prop :=
  Forall (λ c, is_Some (coerced_value (cell_at c r))) numeric_cols.

Global Instance usable_dec r : Decision (usable r).
Proof. unfold usable. apply _. Defined.

(** Row [r'] of the Dataset comes from row [r] of the source: each required
    field holds the number the source cell is coerced to, and every other
    field, present or absent, is as in the source. *)
Definition loaded_from (r r' : gmap string cell) : Prop :=
  (∀ c, c ∈ numeric_cols →
     ∃ q, coerced_value (cell_at c r) = Some q ∧ r' !! c = Some (Num q))
  ∧ (∀ c, c ∉ numeric_cols → r' !! c = r !! c).

End LoaderVocabulary.

(** ** Sample data *)

Definition csv_path : string := "data/vehicles_us.csv".

(** A parser for unsigned decimal integers, enough for the sample files. *)
Fixpoint digits_value (acc : Z) (s : string) : option Z :=
  match s with
  | EmptyString => Some acc
  | String a s' =>
      let n := Z.of_nat (Ascii.nat_of_ascii a) - 48 in
      if bool_decide (0 ≤ n ≤ 9) then digits_value (10 * acc + n) s' else None
  end.

Definition parse_digits (s : string) : option Qc :=
  match s with
  | EmptyString => None
  | _ => Qc_of_Z <$> digits_value 0 s
  end.

(** The conversion of the sample files: texts of digits parse, numbers are
    floats already. *)
Definition digits_only : numeric_conversion :=
  {| parse_number := parse_digits;
     to_float := λ q, q;
     to_float_idem := λ q, eq_refl;
     parse_number_float := λ s q _, eq_refl |}.

Definition vehicle (year odometer price : Qc) (fuel : string) : gmap string cell :=
  {[ "model_year" := Num year; "odometer" := Num odometer;
     "price" := Num price; "fuel" := Str fuel ]}.

(** The two listings of the worked example. *)
Definition two_listings : DataFrame :=
  {| columns := ["model_year"; "odometer"; "price"; "fuel"];
     rows := [ vehicle (Qc_of_Z 2015) (Qc_of_Z 50000) (Qc_of_Z 10000) "gas";
               vehicle (Qc_of_Z 2018) (Qc_of_Z 20000) (Qc_of_Z 18000) "diesel" ] |}.

(** A listing whose year has a fractional part. *)
Definition half_year_listings : DataFrame :=
  {| columns := ["model_year"; "odometer"; "price"; "fuel"];
     rows := [ vehicle (Qc_of_Z 2010) (Qc_of_Z 50000) (Qc_of_Z 10000) "gas";
               vehicle (Q2Qc (4031 # 2)) (Qc_of_Z 20000) (Qc_of_Z 18000) "gas" ] |}.

(** A file as the reader returns it: text cells, one year that is no number
    and one empty price. *)
Definition raw_listings : DataFrame :=
  {| columns := ["model_year"; "odometer"; "price"; "fuel"];
     rows := [ {[ "model_year" := Str "2015"; "odometer" := Str "50000";
                  "price" := Str "10000"; "fuel" := Str "gas" ]};
               {[ "model_year" := Str "unknown"; "odometer" := Str "n/a";
                  "price" := Str "7000"; "fuel" := Str "gas" ]};
               {[ "model_year" := Str "2018"; "odometer" := Str "20000";
                  "price" := NaN; "fuel" := Str "diesel" ]} ] |}.

Definition no_year_table : DataFrame :=
  {| columns := ["odometer"; "price"]; rows := [] |}.

Definition no_odometer_table : DataFrame :=
  {| columns := ["model_year"; "price"];
     rows := [ {[ "model_year" := Str "2015"; "price" := Str "10000" ]} ] |}.

Definition no_fuel_selected : FilterSpec :=
  {| selected_years := (Qc_of_Z 2015, Qc_of_Z 2018);
     selected_fuels := []; selected_conditions := [] |}.

Definition raw_files : gmap string file := {[ csv_path := Table raw_listings ]}.

Definition no_year_files : gmap string file := {[ csv_path := Table no_year_table ]}.

Definition no_odometer_files : gmap string file :=
  {[ csv_path := Table no_odometer_table ]}.

Definition sample_memory : memory :=
  {| objects := {[ 0%nat := two_listings ]}; names := {[ "df" := 0%nat ]} |}.

(** ** The charts

    A figure is the call that builds it: the frame and the keyword
    arguments handed to the plotting library. *)

Inductive figure : Type :=
  | PxHistogram (data_frame : DataFrame) (x : string) (nbins : Z)
      (color : option string) (labels : list (string * string)) (height : Z)
  | PxScatter (data_frame : DataFrame) (x y : string)
      (color : option string) (hover_name : option string)
      (labels : list (string * string)) (height : Z).

(** Lines 107-114. *)
Definition fig_hist (df filtered_df : DataFrame) : figure :=
  PxHistogram filtered_df "odometer" 30
    (if has_column "fuel" df then Some "fuel" else None)
    [("odometer", "Kilometraje")] 500.

(** Lines 119-127. *)
Definition fig_scatter (df filtered_df : DataFrame) : figure :=
  PxScatter filtered_df "odometer" "price"
    (Some (if has_column "condition" df then "condition" else "fuel"))
    (if has_column "model" df then Some "model" else None)
    [("odometer", "Kilometraje"); ("price", "Precio")] 500.

Definition figure_frame (fig : figure) : DataFrame :=
  match fig with
  | PxHistogram d _ _ _ _ _ => d
  | PxScatter d _ _ _ _ _ _ => d
  end.

(** The column labels a figure asks its frame for. *)
Definition figure_columns (fig : figure) : list string :=
  match fig with
  | PxHistogram _ x _ color _ _ => x :: option_list color
  | PxScatter _ x y color hover_name _ _ =>
      x :: y :: option_list color ++ option_list hover_name
  end.

(** ** The page of the whole script

    The elements are listed in the order of the calls that make them; the
    sidebar and the four metric columns are containers of the same page and
    are not told apart. [st.set_page_config] and [st.columns] make no
    element. *)

Inductive element : Type :=
  | Shown (w : widget)
  | StTitle (body : string)
  | StMarkdown (body : string)
  | StSubheader (body : string)
  | StWrite (body : string)
  | StWarning (body : string)
  | StSlider (label : string) (min_value max_value : Z) (value : Z * Z)
  | StMultiselect (label : string) (options default : list cell)
  | StRadio (label : string) (options : list string)
  | StCheckbox (label : string)
  | StPlotlyChart (fig : figure)
  | StDataframe (data : DataFrame).

Definition app (A : Type) : Type := list element → list element * (exn + A).

Global Instance app_ret : MRet app := λ A a page, (page, inr a).

Global Instance app_bind : MBind app := λ A B k m page,
  match m page with
  | (page', inr a) => k a page'
  | (page', inl e) => (page', inl e)
  end.

Definition render (e : element) : app unit := λ page, (page ++ [e], inr tt).

(** A computation that may raise, inside the script. *)
Definition eval {A} (x : exn + A) : app A := λ page, (page, x).

(** A block that shows errors and metrics, run on the page. *)
Definition run {A} (s : script A) : app A := λ page,
  (page ++ (Shown <$> fst (s [])), snd (s [])).

(** What the visitor has set on each control; [None] is a control left as
    the script built it, which returns its default. *)
Record controls : Type := mkControls {
  years_set : option (Z * Z);
  fuels_set : option (list cell);
  conditions_set : option (list cell);
  visualization_set : option string;
  show_data_set : option bool
}.

Definition untouched : controls :=
  {| years_set := None; fuels_set := None; conditions_set := None;
     visualization_set := None; show_data_set := None |}.

Definition multiselect (label : string) (options default_ : list cell)
    (set : option (list cell)) : app (list cell) :=
  render (StMultiselect label options default_);;
  mret (default default_ set).

(** A radio starts on its first option. *)
Definition radio (label : string) (options : list string)
    (set : option string) : app string :=
  render (StRadio label options);;
  mret (default (default String.EmptyString (head options)) set).

(** A checkbox starts unticked. *)
Definition checkbox (label : string) (set : option bool) : app bool :=
  render (StCheckbox label);;
  mret (default false set).

Section Script.

Variable pd : numeric_conversion.

(** The text of the exception [st.slider] raises when its two ends are
    equal, and of the [ValueError] the plotting library raises for a figure
    that names a column its frame does not have. *)
Variable slider_error : Z → Z → string.
Variable plotly_error : figure → string.

(** A slider needs two different ends; the ends the script passes are never
    the wrong way round. *)
Definition slider (label : string) (min_value max_value : Z) (value : Z * Z)
    (set : option (Z * Z)) : app (Z * Z) :=
  if bool_decide (min_value = max_value)
  then eval (inl (OtherError (slider_error min_value max_value)))
  else render (StSlider label min_value max_value value);;
       mret (default value set).

(** [px.histogram] and [px.scatter] look every column they are given up in
    the frame. *)
Definition px (fig : figure) : app figure :=
  if bool_decide (figure_columns fig ⊆ columns (figure_frame fig))
  then mret fig
  else eval (inl (ValueError (plotly_error fig))).

(** Lines 47-74: the sidebar and the specification it returns. The
    multiselect of an absent column is not built and its selection is never
    read. *)
Definition sidebar (df : DataFrame) (ui : controls) : app FilterSpec :=
  render (StTitle "🔧 Filtros");;
  render (StMarkdown "---");;
  lo ← eval (min_year df);
  hi ← eval (max_year df);
  years ← slider "Selecciona el rango de años de fabricación" lo hi (lo, hi)
             (years_set ui);
  fuels ← (if has_column "fuel" df
           then multiselect "Tipo de combustible"
                  (fuel_types df) (fuel_types df) (fuels_set ui)
           else mret ([] : list cell));
  conds ← (if has_column "condition" df
           then multiselect "Condición del vehículo"
                  (conditions df) (conditions df) (conditions_set ui)
           else mret ([] : list cell));
  mret {| selected_years := (Qc_of_Z (fst years), Qc_of_Z (snd years));
          selected_fuels := fuels;
          selected_conditions := conds |}.

(** The script from its first line to its last. *)
Definition main (fs : gmap string file) (ui : controls) : app unit :=
  render (StTitle "📊 Dashboard Exploratorio de Vehículos Usados");;
  render (StMarkdown "---");;
  df ← run (load_data pd fs);
  match df with
  | Some df =>
      spec ← sidebar df ui;
      let view := filtered_df df spec in
      render (StSubheader "📈 Métricas Clave");;
      run (metrics view);;
      render (StMarkdown "---");;
      render (StSubheader "📊 Visualizaciones");;
      visualization ← radio "Tipo de gráfico:" ["Histograma"; "Dispersión"; "Ambos"]
                         (visualization_set ui);
      (if bool_decide (visualization ∈ ["Histograma"; "Ambos"])
       then render (StWrite "#### Distribución de Kilometraje");;
            fig ← px (fig_hist df view);
            render (StPlotlyChart fig)
       else mret tt);;
      (if bool_decide (visualization ∈ ["Dispersión"; "Ambos"])
       then render (StWrite "#### Relación Precio vs. Kilometraje");;
            fig ← px (fig_scatter df view);
            render (StPlotlyChart fig)
       else mret tt);;
      render (StMarkdown "---");;
      show_data ← checkbox "Mostrar datos filtrados" (show_data_set ui);
      if (show_data : bool) then render (StDataframe view) else mret tt
  | None =>
      render (StWarning
        "No se pueden mostrar visualizaciones debido a problemas con los datos.")
  end.

End Script.

(** ** More sample data *)

(** A table in which no row has three usable cells. *)
Definition unusable_listings : DataFrame :=
  {| columns := ["model_year"; "odometer"; "price"];
     rows := [ {[ "model_year" := Str "unknown"; "odometer" := Str "50000";
                  "price" := Str "10000" ]};
               {[ "model_year" := Str "2018"; "odometer" := NaN;
                  "price" := Str "18000" ]} ] |}.

Definition unusable_files : gmap string file :=
  {[ csv_path := Table unusable_listings ]}.

Definition two_listings_files : gmap string file :=
  {[ csv_path := Table two_listings ]}.

(** The years 2015 to 2018 with every fuel of the two listings selected. *)
Definition all_fuels_selected : FilterSpec :=
  {| selected_years := (Qc_of_Z 2015, Qc_of_Z 2018);
     selected_fuels := fuel_types two_listings;
     selected_conditions := [] |}.

(** The years 2016 to 2018 with diesel alone selected. *)
Definition diesel_from_2016 : FilterSpec :=
  {| selected_years := (Qc_of_Z 2016, Qc_of_Z 2018);
     selected_fuels := [Str "diesel"];
     selected_conditions := [] |}.

(** Stand-ins for the texts of the libraries' exceptions. *)
Definition sample_slider_error (min_value max_value : Z) : string :=
  "Slider min_value must be less than max_value".

Definition sample_plotly_error (fig : figure) : string :=
  "Value is not the name of a column in data_frame".

(** A Dataset with neither a fuel nor a condition column. *)
Definition bare_listings : DataFrame :=
  {| columns := ["model_year"; "odometer"; "price"];
     rows := [ {[ "model_year" := Num (Qc_of_Z 2015);
                  "odometer" := Num (Qc_of_Z 50000);
                  "price" := Num (Qc_of_Z 10000) ]} ] |}.

Definition bare_files : gmap string file := {[ csv_path := Table bare_listings ]}.

(** ** Masks and selections *)

Lemma select_rows_fmap (f : gmap string cell → bool) (rs : list (gmap string cell)) :
  select_rows rs (f <$> rs) = filter f rs.
Proof.
  induction rs as [|r rs IH]; [done|].
  cbn [fmap list_fmap select_rows]. rewrite filter_cons.
  fold (fmap f rs). rewrite IH.
  destruct (f r); by case_decide.
Qed.

Lemma boolean_index_column (df : DataFrame) (c : string) (g : cell → bool) :
  boolean_index df (g <$> get_column c df) =
  {| columns := columns df; rows := filter (λ r, g (cell_at c r)) (rows df) |}.
Proof.
  unfold boolean_index, get_column. f_equal.
  rewrite <-list_fmap_compose. apply select_rows_fmap.
Qed.

Lemma in_years_within (lo hi : Qc) (r : gmap string cell) :
  in_years lo hi (cell_at "model_year" r) ↔ year_within lo hi r.
Proof.
  unfold year_within, modelYear, in_years.
  destruct (cell_at "model_year" r); [done| |done].
  rewrite andb_True, !bool_decide_spec. done.
Qed.

Lemma has_column_spec (c : string) (df : DataFrame) :
  has_column c df = true ↔ c ∈ columns df.
Proof. unfold has_column. apply bool_decide_eq_true. Qed.

Lemma has_column_false (c : string) (df : DataFrame) :
  has_column c df = false ↔ c ∉ columns df.
Proof. unfold has_column. apply bool_decide_eq_false. Qed.

(** The three masks select the rows of the view. *)
Lemma filtered_df_rows (df : DataFrame) (spec : FilterSpec) :
  rows (filtered_df df spec) = filter (in_view df spec) (rows df).
Proof.
  unfold filtered_df, between, isin.
  rewrite !boolean_index_column. unfold has_column.
  do 2 case_bool_decide;
    rewrite ?boolean_index_column; cbn [rows columns];
    rewrite ?list_filter_filter;
    apply list_filter_iff; intros r; unfold in_view;
    rewrite <-in_years_within, ?bool_decide_spec; tauto.
Qed.

Lemma filtered_df_columns (df : DataFrame) (spec : FilterSpec) :
  columns (filtered_df df spec) = columns df.
Proof.
  unfold filtered_df.
  by destruct (has_column "fuel" df), (has_column "condition" df).
Qed.

Lemma frame_eq (d1 d2 : DataFrame) :
  columns d1 = columns d2 → rows d1 = rows d2 → d1 = d2.
Proof. destruct d1, d2; cbn; by intros -> ->. Qed.

(** C4. The frame that lines 77-83 leave in [filtered_df] has the columns of
    the Dataset and, in order, exactly those of its rows whose year lies in
    the selected closed range, whose fuel is selected unless the Dataset has
    no fuel column, and whose condition is selected unless the Dataset has
    no condition column. *)
Theorem filtered_df_is_view (df : DataFrame) (spec : FilterSpec) :
  filtered_df df spec =
  {| columns := columns df; rows := filter (in_view df spec) (rows df) |}.
Proof.
  apply frame_eq; cbn [columns rows].
  - apply filtered_df_columns.
  - apply filtered_df_rows.
Qed.

Lemma filter_none {A} (P : A → Prop) `{!∀ x, Decision (P x)} (l : list A) :
  (∀ x, x ∈ l → ¬ P x) → filter P l = [].
Proof.
  induction l as [|a l IH]; [done|]. intros Hall.
  rewrite filter_cons_False by (apply Hall; left).
  apply IH. intros x Hx. apply Hall. by right.
Qed.

Lemma filter_all {A} (P : A → Prop) `{!∀ x, Decision (P x)} (l : list A) :
  Forall P l → filter P l = l.
Proof.
  induction 1 as [|a l Ha _ IH]; [done|].
  rewrite filter_cons_True by done. by rewrite IH.
Qed.

(** C7. When the Dataset has a fuel column and no fuel is selected, the
    frame left in [filtered_df] has no row: its length is 0, and it is an
    ordinary frame with the columns of the Dataset. *)
Theorem empty_fuel_selection_empty_view (df : DataFrame) (spec : FilterSpec) :
  "fuel" ∈ columns df →
  selected_fuels spec = [] →
  filtered_df df spec = {| columns := columns df; rows := [] |}
  ∧ len (filtered_df df spec) = 0%nat.
Proof.
  intros Hfuel Hsel.
  assert (rows (filtered_df df spec) = []) as Hrows.
  { rewrite filtered_df_rows. apply filter_none.
    intros r _ (_ & [Hno | Hin] & _); [done|].
    rewrite Hsel in Hin. by apply not_elem_of_nil in Hin. }
  split.
  - apply frame_eq; cbn [columns rows]; [apply filtered_df_columns | done].
  - unfold len. by rewrite Hrows.
Qed.

Lemma empty_fuel_selection_empty_view_witness :
  "fuel" ∈ columns two_listings
  ∧ selected_fuels no_fuel_selected = []
  ∧ len (filtered_df two_listings no_fuel_selected) = 0%nat.
Proof.
  assert ("fuel" ∈ columns two_listings) as Hfuel by (vm_compute; set_solver).
  split; [exact Hfuel|]. split; [reflexivity|].
  exact (proj2 (empty_fuel_selection_empty_view two_listings no_fuel_selected
                  Hfuel eq_refl)).
Defined.

(** C8. Filtering the frame left in [filtered_df] once more with the same
    specification gives that frame again. *)
Theorem filtered_df_idempotent (df : DataFrame) (spec : FilterSpec) :
  filtered_df (filtered_df df spec) spec = filtered_df df spec.
Proof.
  apply frame_eq.
  - by rewrite !filtered_df_columns.
  - rewrite (filtered_df_rows (filtered_df df spec)).
    rewrite (filtered_df_rows df), list_filter_filter.
    apply list_filter_iff. intros r. unfold in_view.
    rewrite filtered_df_columns. tauto.
Qed.

(** ** Reductions of a column *)

Lemma elem_of_numbers (q : Qc) (s : list cell) : q ∈ numbers s ↔ Num q ∈ s.
Proof.
  unfold numbers. rewrite list_elem_of_omap. split.
  - intros (c & Hc & Hq). destruct c; naive_solver.
  - intros Hq. by exists (Num q).
Qed.

Lemma foldl_Qc_min_le (l : list Qc) (x : Qc) :
  (foldl Qc_min x l ≤ x)%Qc ∧ ∀ q, q ∈ l → (foldl Qc_min x l ≤ q)%Qc.
Proof.
  revert x. induction l as [|a l IH]; intros x; cbn [foldl].
  - split; [done|]. intros q Hq. by apply not_elem_of_nil in Hq.
  - destruct (IH (Qc_min x a)) as [Hx Hl].
    assert (Qc_min x a ≤ x ∧ Qc_min x a ≤ a)%Qc as [Hmx Hma].
    { unfold Qc_min. case_decide; split; try done.
      apply Qclt_le_weak. by apply Qclt_nge. }
    split; [by etrans|].
    intros q [->|Hq]%elem_of_cons; [by etrans | by apply Hl].
Qed.

Lemma foldl_Qc_max_ge (l : list Qc) (x : Qc) :
  (x ≤ foldl Qc_max x l)%Qc ∧ ∀ q, q ∈ l → (q ≤ foldl Qc_max x l)%Qc.
Proof.
  revert x. induction l as [|a l IH]; intros x; cbn [foldl].
  - split; [done|]. intros q Hq. by apply not_elem_of_nil in Hq.
  - destruct (IH (Qc_max x a)) as [Hx Hl].
    assert (x ≤ Qc_max x a ∧ a ≤ Qc_max x a)%Qc as [Hmx Hma].
    { unfold Qc_max. case_decide; split; try done.
      apply Qclt_le_weak. by apply Qclt_nge. }
    split; [by etrans|].
    intros q [->|Hq]%elem_of_cons; [by etrans | by apply Hl].
Qed.

Lemma series_min_le (s : list cell) (m q : Qc) :
  series_min s = Some m → Num q ∈ s → (m ≤ q)%Qc.
Proof.
  unfold series_min. rewrite <-elem_of_numbers.
  destruct (numbers s) as [|x l]; [done|].
  destruct (foldl_Qc_min_le l x) as [Hx Hl].
  intros [= <-] [->|Hq]%elem_of_cons; auto.
Qed.

Lemma series_max_ge (s : list cell) (m q : Qc) :
  series_max s = Some m → Num q ∈ s → (q ≤ m)%Qc.
Proof.
  unfold series_max. rewrite <-elem_of_numbers.
  destruct (numbers s) as [|x l]; [done|].
  destruct (foldl_Qc_max_ge l x) as [Hx Hl].
  intros [= <-] [->|Hq]%elem_of_cons; auto.
Qed.

Lemma py_int_whole (z : Z) : py_int (Some (Qc_of_Z z)) = inr z.
Proof. cbn. by rewrite Z.quot_1_r. Qed.

Lemma elem_of_unique_from (seen s : list cell) (c : cell) :
  c ∈ s → c ∈ seen ∨ c ∈ unique_from seen s.
Proof.
  revert seen. induction s as [|a s IH]; intros seen Hc.
  - by apply not_elem_of_nil in Hc.
  - cbn [unique_from]. apply elem_of_cons in Hc as [->|Hc].
    + case_bool_decide; [by left | right; left].
    + case_bool_decide; [by apply IH|].
      destruct (IH (a :: seen) Hc) as [[->|Hs]%elem_of_cons | Hu].
      * right; left.
      * by left.
      * right; by right.
Qed.

Lemma elem_of_unique (s : list cell) (c : cell) : c ∈ s → c ∈ unique s.
Proof.
  intros Hc. destruct (elem_of_unique_from [] s c Hc) as [Hnil|Hu]; [|done].
  by apply not_elem_of_nil in Hnil.
Qed.

Lemma cell_at_in_column (c : string) (df : DataFrame) (r : gmap string cell) :
  r ∈ rows df → cell_at c r ∈ get_column c df.
Proof. intros Hr. unfold get_column. apply list_elem_of_fmap. by exists r. Qed.

(** In a Dataset the years of all rows lie between the least and the
    greatest year of the column. *)
Lemma years_within_min_max (df : DataFrame) (lo hi : Qc) :
  Dataset df →
  series_min (get_column "model_year" df) = Some lo →
  series_max (get_column "model_year" df) = Some hi →
  Forall (year_within lo hi) (rows df).
Proof.
  intros [_ Hnum] Hmin Hmax.
  rewrite Forall_forall in Hnum. apply Forall_forall. intros r Hr.
  specialize (Hnum r Hr). apply Forall_cons_1 in Hnum as [Hyear _].
  unfold year_within, modelYear.
  destruct (cell_at "model_year" r) as [|y|] eqn:Hy; [done| |done].
  assert (Num y ∈ get_column "model_year" df) as Hin.
  { rewrite <-Hy. by apply cell_at_in_column. }
  split; [by eapply series_min_le | by eapply series_max_ge].
Qed.

(** A Dataset with a row has a least and a greatest year. *)
Lemma dataset_year_span (df : DataFrame) :
  Dataset df → rows df ≠ [] →
  ∃ lo hi, series_min (get_column "model_year" df) = Some lo
           ∧ series_max (get_column "model_year" df) = Some hi.
Proof.
  intros [_ Hnum] Hrows. unfold series_min, series_max, get_column.
  destruct (rows df) as [|r rs]; [done|].
  apply Forall_cons_1 in Hnum as [Hr _]. apply Forall_cons_1 in Hr as [Hyear _].
  cbn [fmap list_fmap numbers omap list_omap].
  destruct (cell_at "model_year" r) as [|y|]; [done| |done]. by eexists _, _.
Qed.

(** C5. Every Dataset with at least one row has a least and a greatest
    model year, and the specification with the year range from the one to
    the other and with every distinct fuel and every distinct condition of
    the Dataset selected leaves in [filtered_df] the Dataset itself: the
    same columns and the same rows in the same order. *)
Theorem full_selection_is_identity (df : DataFrame) :
  Dataset df →
  rows df ≠ [] →
  ∃ lo hi, series_min (get_column "model_year" df) = Some lo
           ∧ series_max (get_column "model_year" df) = Some hi
           ∧ filtered_df df {| selected_years := (lo, hi);
                               selected_fuels := fuel_types df;
                               selected_conditions := conditions df |} = df.
Proof.
  intros Hds Hrows.
  destruct (dataset_year_span df Hds Hrows) as (lo & hi & Hmin & Hmax).
  exists lo, hi. split; [done|]. split; [done|].
  apply frame_eq; [apply filtered_df_columns|].
  rewrite filtered_df_rows. apply filter_all.
  pose proof (years_within_min_max df lo hi Hds Hmin Hmax) as Hyears.
  rewrite Forall_forall in Hyears. apply Forall_forall. intros r Hr.
  split; [by apply Hyears|]. cbn [selected_fuels selected_conditions].
  split; right; apply elem_of_unique; by apply cell_at_in_column.
Qed.

Lemma full_selection_is_identity_witness :
  Dataset two_listings
  ∧ rows two_listings ≠ []
  ∧ filtered_df two_listings
      {| selected_years := (Qc_of_Z 2015, Qc_of_Z 2018);
         selected_fuels := fuel_types two_listings;
         selected_conditions := conditions two_listings |} = two_listings.
Proof.
  assert (Dataset two_listings) as Hds by (by apply (bool_decide_unpack _)).
  assert (rows two_listings ≠ []) as Hrows by done.
  split; [exact Hds|]. split; [exact Hrows|].
  destruct (full_selection_is_identity two_listings Hds Hrows)
    as (lo & hi & Hmin & Hmax & Hsame).
  assert (series_min (get_column "model_year" two_listings) = Some (Qc_of_Z 2015))
    as Hlo by reflexivity.
  assert (series_max (get_column "model_year" two_listings) = Some (Qc_of_Z 2018))
    as Hhi by reflexivity.
  rewrite Hlo in Hmin. rewrite Hhi in Hmax.
  injection Hmin as <-. injection Hmax as <-. exact Hsame.
Defined.

(** The least and the greatest number of a column are numbers of it. *)
Lemma foldl_Qc_min_elem (l : list Qc) (x : Qc) : foldl Qc_min x l ∈ x :: l.
Proof.
  revert x. induction l as [|a l IH]; intros x; cbn [foldl]; [by left|].
  specialize (IH (Qc_min x a)). apply elem_of_cons in IH as [->|IH].
  - unfold Qc_min. case_decide; [by left | right; by left].
  - right; by right.
Qed.

Lemma foldl_Qc_max_elem (l : list Qc) (x : Qc) : foldl Qc_max x l ∈ x :: l.
Proof.
  revert x. induction l as [|a l IH]; intros x; cbn [foldl]; [by left|].
  specialize (IH (Qc_max x a)). apply elem_of_cons in IH as [->|IH].
  - unfold Qc_max. case_decide; [right; by left | by left].
  - right; by right.
Qed.

Lemma series_min_elem (s : list cell) (m : Qc) :
  series_min s = Some m → Num m ∈ s.
Proof.
  unfold series_min. rewrite <-elem_of_numbers.
  destruct (numbers s) as [|x l]; [done|]. intros [= <-].
  apply foldl_Qc_min_elem.
Qed.

Lemma series_max_elem (s : list cell) (m : Qc) :
  series_max s = Some m → Num m ∈ s.
Proof.
  unfold series_max. rewrite <-elem_of_numbers.
  destruct (numbers s) as [|x l]; [done|]. intros [= <-].
  apply foldl_Qc_max_elem.
Qed.

(** A number of the year column of a frame whose years are all whole. *)
Lemma whole_year_in_column (df : DataFrame) (q : Qc) :
  Forall (λ r, ∃ z, modelYear r = Some (Qc_of_Z z)) (rows df) →
  Num q ∈ get_column "model_year" df → ∃ z, q = Qc_of_Z z.
Proof.
  intros Hwhole (r & Hcell & Hr)%list_elem_of_fmap.
  rewrite Forall_forall in Hwhole. destruct (Hwhole r Hr) as [z Hz].
  exists z. unfold modelYear in Hz. rewrite <-Hcell in Hz. congruence.
Qed.

(** Outside the whole years: with the years 2010 and 2015.5, which the
    loader keeps, the slider ends are 2010 and 2015 and the second row is
    outside the range. *)
Example derived_range_misses_fractional_year :
  Dataset half_year_listings
  ∧ rows half_year_listings ≠ []
  ∧ min_year half_year_listings = inr 2010
  ∧ max_year half_year_listings = inr 2015
  ∧ ¬ full_range_representable half_year_listings.
Proof.
  split; [by apply (bool_decide_unpack _)|].
  split; [done|]. split; [reflexivity|]. split; [reflexivity|].
  intros (lo & hi & Hlo & Hhi & Hall).
  assert (lo = 2010) as -> by (vm_compute in Hlo; congruence).
  assert (hi = 2015) as -> by (vm_compute in Hhi; congruence).
  revert Hall. by apply (bool_decide_unpack _).
Qed.

(** C6. For a Dataset with at least one row whose model years are whole
    numbers, as the data model types them, the slider ends derived in lines
    52-53 are the least and the greatest model year, the year of every row
    lies in the closed interval between them, and the year mask of line 77
    with the full derived range keeps every row. *)
Theorem derived_range_covers_whole_years (df : DataFrame) :
  Dataset df →
  rows df ≠ [] →
  Forall (λ r, ∃ z, modelYear r = Some (Qc_of_Z z)) (rows df) →
  ∃ lo hi,
    series_min (get_column "model_year" df) = Some (Qc_of_Z lo)
    ∧ series_max (get_column "model_year" df) = Some (Qc_of_Z hi)
    ∧ min_year df = inr lo
    ∧ max_year df = inr hi
    ∧ Forall (year_within (Qc_of_Z lo) (Qc_of_Z hi)) (rows df)
    ∧ full_range_representable df
    ∧ boolean_index df
        (between (get_column "model_year" df) (Qc_of_Z lo) (Qc_of_Z hi)) = df.
Proof.
  intros Hds Hrows Hwhole.
  destruct (dataset_year_span df Hds Hrows) as (qlo & qhi & Hmin & Hmax).
  destruct (whole_year_in_column df qlo Hwhole (series_min_elem _ _ Hmin))
    as [lo ->].
  destruct (whole_year_in_column df qhi Hwhole (series_max_elem _ _ Hmax))
    as [hi ->].
  assert (min_year df = inr lo) as Hlo.
  { unfold min_year. rewrite Hmin. apply py_int_whole. }
  assert (max_year df = inr hi) as Hhi.
  { unfold max_year. rewrite Hmax. apply py_int_whole. }
  pose proof (years_within_min_max df _ _ Hds Hmin Hmax) as Hyears.
  exists lo, hi. do 5 (split; [done|]). split; [by exists lo, hi|].
  unfold between. rewrite boolean_index_column.
  apply frame_eq; [done|]. cbn [rows]. apply filter_all.
  eapply Forall_impl; [exact Hyears|]. intros r. by rewrite in_years_within.
Qed.

Lemma derived_range_covers_whole_years_witness :
  Dataset two_listings
  ∧ rows two_listings ≠ []
  ∧ Forall (λ r, ∃ z, modelYear r = Some (Qc_of_Z z)) (rows two_listings)
  ∧ min_year two_listings = inr 2015
  ∧ max_year two_listings = inr 2018
  ∧ full_range_representable two_listings.
Proof.
  assert (Dataset two_listings) as Hds by (by apply (bool_decide_unpack _)).
  assert (rows two_listings ≠ []) as Hrows by done.
  assert (Forall (λ r, ∃ z, modelYear r = Some (Qc_of_Z z)) (rows two_listings))
    as Hwhole.
  { repeat constructor; [by exists 2015 | by exists 2018]. }
  split; [exact Hds|]. split; [exact Hrows|]. split; [exact Hwhole|].
  split; [reflexivity|]. split; [reflexivity|].
  destruct (derived_range_covers_whole_years two_listings Hds Hrows Hwhole)
    as (lo & hi & _ & _ & _ & _ & _ & Hfull & _).
  exact Hfull.
Defined.

(** ** The loader *)

Lemma filter_fmap {A B} (f : A → B) (P : B → Prop) `{!∀ y, Decision (P y)}
    (l : list A) :
  filter P (f <$> l) = f <$> filter (λ x, P (f x)) l.
Proof.
  induction l as [|a l IH]; [done|].
  cbn [fmap list_fmap]. rewrite !filter_cons. fold (fmap f l). rewrite IH.
  by case_decide.
Qed.

Lemma length_filter_complement {A} (P : A → Prop) `{!∀ x, Decision (P x)}
    (l : list A) :
  length (filter P l) = (length l - length (filter (λ x, ¬ P x) l))%nat.
Proof.
  induction l as [|a l IH]; [done|].
  rewrite !filter_cons.
  pose proof (length_filter (λ x, ¬ P x) l) as Hle.
  destruct (decide (P a)), (decide (¬ P a)); cbn [length]; try done; lia.
Qed.

Lemma numeric_cols_subseteq (l : list string) :
  numeric_cols ⊆ l ↔ "model_year" ∈ l ∧ "odometer" ∈ l ∧ "price" ∈ l.
Proof.
  unfold numeric_cols. split.
  - intros Hsub. repeat split; apply Hsub; repeat constructor.
  - intros (Hy & Ho & Hp) c Hc.
    repeat (apply elem_of_cons in Hc as [->|Hc]; [done|]).
    by apply not_elem_of_nil in Hc.
Qed.

Lemma elem_of_numeric_cols (c : string) :
  c ∈ numeric_cols ↔ c = "model_year" ∨ c = "odometer" ∨ c = "price".
Proof. unfold numeric_cols. rewrite !elem_of_cons, elem_of_nil. tauto. Qed.

Lemma dropna_present (subset : list string) (df : DataFrame) :
  subset ⊆ columns df →
  dropna subset df =
  inr {| columns := columns df;
         rows := filter (λ r, forallb (λ c, negb (isna (cell_at c r))) subset)
                   (rows df) |}.
Proof.
  intros Hsub. unfold dropna.
  rewrite filter_none by (intros c Hc Hno; by apply Hno, Hsub).
  unfold boolean_index. by rewrite select_rows_fmap.
Qed.

Lemma dropna_absent (subset : list string) (df : DataFrame) :
  filter (λ c, c ∉ columns df) subset ≠ [] →
  dropna subset df = inl (KeyError (filter (λ c, c ∉ columns df) subset)).
Proof.
  intros Hne. unfold dropna.
  by destruct (filter (λ c, c ∉ columns df) subset).
Qed.

Section LoaderFacts.

Variable pd : numeric_conversion.

Lemma to_numeric_number_or_missing (c : cell) :
  to_numeric pd c ≠ NaN ↔ is_number (to_numeric pd c).
Proof.
  destruct c as [|q|s]; cbn; [naive_solver..|].
  destruct (parse_number pd s); naive_solver.
Qed.

Lemma coerce_column_present (df : DataFrame) (c : string) :
  c ∈ columns df →
  coerce_column pd df c =
  {| columns := columns df;
     rows := (λ r, <[c := to_numeric pd (cell_at c r)]> r) <$> rows df |}.
Proof.
  intros Hc. apply has_column_spec in Hc as Hhas.
  unfold coerce_column, set_column, get_column. rewrite Hhas. f_equal.
  rewrite <-list_fmap_compose, zip_with_fmap_r, zip_with_diag. done.
Qed.

Lemma coerce_column_absent (df : DataFrame) (c : string) :
  c ∉ columns df → coerce_column pd df c = df.
Proof.
  intros Hc. apply has_column_false in Hc.
  unfold coerce_column. by rewrite Hc.
Qed.

Lemma coerce_column_columns (df : DataFrame) (c : string) :
  columns (coerce_column pd df c) = columns df.
Proof.
  destruct (decide (c ∈ columns df)).
  - by rewrite coerce_column_present.
  - by rewrite coerce_column_absent.
Qed.

(** The loop of lines 29-31 leaves the column labels as they are. *)
Lemma coerce_loop_columns (cols : list string) (df : DataFrame) :
  columns (foldl (coerce_column pd) df cols) = columns df.
Proof.
  revert df. induction cols as [|c cols IH]; intros df; [done|].
  cbn [foldl]. by rewrite IH, coerce_column_columns.
Qed.

(** With the three columns present the loop coerces every row. *)
Lemma coerce_loop_rows (df : DataFrame) :
  numeric_cols ⊆ columns df →
  foldl (coerce_column pd) df numeric_cols =
  {| columns := columns df; rows := coerce_row pd <$> rows df |}.
Proof.
  intros (Hy & Ho & Hp)%numeric_cols_subseteq.
  unfold numeric_cols. cbn [foldl].
  rewrite (coerce_column_present df "model_year") by done.
  rewrite (coerce_column_present _ "odometer") by done.
  rewrite (coerce_column_present _ "price") by done.
  cbn [columns rows]. f_equal. rewrite <-!list_fmap_compose.
  apply list_fmap_ext. intros _ r _. unfold coerce_row, cell_at. cbn.
  by rewrite !lookup_insert_ne by done.
Qed.

Lemma cell_at_coerce_row (r : gmap string cell) (c : string) :
  cell_at c (coerce_row pd r) =
  if decide (c ∈ numeric_cols) then to_numeric pd (cell_at c r)
  else cell_at c r.
Proof.
  unfold coerce_row, cell_at, numeric_cols.
  destruct (decide (c = "price")) as [->|Hp].
  { rewrite lookup_insert_eq. by rewrite decide_True by (rewrite elem_of_numeric_cols; tauto). }
  rewrite lookup_insert_ne by done.
  destruct (decide (c = "odometer")) as [->|Ho].
  { rewrite lookup_insert_eq. by rewrite decide_True by (rewrite elem_of_numeric_cols; tauto). }
  rewrite lookup_insert_ne by done.
  destruct (decide (c = "model_year")) as [->|Hy].
  { rewrite lookup_insert_eq. by rewrite decide_True by (rewrite elem_of_numeric_cols; tauto). }
  rewrite lookup_insert_ne by done.
  by rewrite decide_False by (rewrite elem_of_numeric_cols; tauto).
Qed.

Lemma complete_coerce_row (r : gmap string cell) :
  forallb (λ c, negb (isna (cell_at c (coerce_row pd r)))) numeric_cols
  ↔ parsable pd r.
Proof.
  unfold parsable. rewrite forallb_True.
  split; rewrite !Forall_forall; intros Hall c Hc; specialize (Hall c Hc).
  - rewrite cell_at_coerce_row, decide_True in Hall by done.
    by destruct (to_numeric pd (cell_at c r)).
  - rewrite cell_at_coerce_row, decide_True by done.
    by destruct (to_numeric pd (cell_at c r)).
Qed.

Lemma load_data_complete (fs : gmap string file) (t : DataFrame)
    (page : list widget) :
  fs !! csv_path = Some (Table t) →
  numeric_cols ⊆ columns t →
  load_data pd fs page =
  (page, inr (Some {| columns := columns t;
                      rows := coerce_row pd
                                <$> filter (parsable pd) (rows t) |})).
Proof.
  intros Hfile Hcols.
  assert (has_column "model_year" t = true) as Hyear.
  { apply has_column_spec, Hcols, elem_of_numeric_cols. by left. }
  unfold load_data, try_except, mbind, script_bind, lift, read_csv.
  unfold csv_path in Hfile. rewrite Hfile, Hyear. cbn [negb].
  fold numeric_cols. rewrite coerce_loop_rows by done.
  rewrite dropna_present by done. cbn [columns rows mret script_ret].
  do 4 f_equal. rewrite filter_fmap. f_equal.
  apply list_filter_iff. intros r. apply complete_coerce_row.
Qed.

Lemma load_data_no_year (fs : gmap string file) (t : DataFrame)
    (page : list widget) :
  fs !! csv_path = Some (Table t) →
  "model_year" ∉ columns t →
  load_data pd fs page =
  (page ++ [StError "Error: La columna 'model_year' no existe en el dataset."],
   inr None).
Proof.
  intros Hfile Hyear. apply has_column_false in Hyear.
  unfold load_data, try_except, mbind, script_bind, lift, read_csv.
  unfold csv_path in Hfile. by rewrite Hfile, Hyear.
Qed.

Lemma load_data_key_error (fs : gmap string file) (t : DataFrame)
    (page : list widget) :
  fs !! csv_path = Some (Table t) →
  "model_year" ∈ columns t →
  "odometer" ∉ columns t ∨ "price" ∉ columns t →
  load_data pd fs page =
  (page ++ [StError ("Error al cargar datos: " +:+
                     repr_list (filter (λ c, c ∉ columns t) ["odometer"; "price"]))],
   inr None).
Proof.
  intros Hfile Hyear Habsent. apply has_column_spec in Hyear as Hhas.
  unfold load_data, try_except, mbind, script_bind, lift, read_csv.
  unfold csv_path in Hfile. rewrite Hfile, Hhas. cbn [negb].
  rewrite dropna_absent; rewrite coerce_loop_columns, filter_cons_False by tauto.
  - done.
  - rewrite !filter_cons, filter_nil.
    destruct Habsent; repeat case_decide; done.
Qed.

End LoaderFacts.

Section LoaderClaims.

Variable pd : numeric_conversion.

Lemma loaded_rows_are_numbers (t : DataFrame) :
  numeric_cols ⊆ columns t →
  Dataset {| columns := columns t;
             rows := coerce_row pd
                       <$> filter (parsable pd) (rows t) |}.
Proof.
  intros Hcols. split; [done|]. cbn [rows].
  apply Forall_fmap, Forall_forall. intros r [Hr _]%list_elem_of_filter.
  cbn. unfold parsable in Hr. rewrite Forall_forall in Hr.
  apply Forall_forall. intros c Hc.
  rewrite cell_at_coerce_row, decide_True by done.
  by apply to_numeric_number_or_missing, Hr.
Qed.

(** Whatever the file system holds, the loader raises nothing: it either
    shows one error and returns [None], or shows nothing and returns a
    Dataset. *)
Lemma load_data_outcome (fs : gmap string file) (page : list widget) :
  (∃ msg, load_data pd fs page = (page ++ [StError msg], inr None))
  ∨ (∃ d, load_data pd fs page = (page, inr (Some d)) ∧ Dataset d).
Proof.
  destruct (fs !! csv_path) as [[detail|t]|] eqn:Hfile.
  - left. eexists.
    unfold load_data, try_except, mbind, script_bind, lift, read_csv.
    unfold csv_path in Hfile. rewrite Hfile. reflexivity.
  - destruct (decide ("model_year" ∈ columns t)) as [Hy|Hy];
      [|left; eexists; by eapply load_data_no_year].
    destruct (decide ("odometer" ∈ columns t)) as [Ho|Ho];
      [|left; eexists; eapply load_data_key_error; eauto].
    destruct (decide ("price" ∈ columns t)) as [Hp|Hp];
      [|left; eexists; eapply load_data_key_error; eauto].
    assert (numeric_cols ⊆ columns t) as Hcols
      by (by apply numeric_cols_subseteq).
    right. eexists. split; [by apply load_data_complete|].
    by apply loaded_rows_are_numbers.
  - left. eexists.
    unfold load_data, try_except, mbind, script_bind, lift, read_csv.
    unfold csv_path in Hfile. rewrite Hfile. reflexivity.
Qed.

(** C2. When the table read from the file has no [model_year] column, the
    loader shows the message that the column does not exist and returns
    [None]: no frame comes out of it. *)
Theorem load_data_without_model_year (fs : gmap string file) (t : DataFrame)
    (page : list widget) :
  fs !! csv_path = Some (Table t) →
  "model_year" ∉ columns t →
  load_data pd fs page =
  (page ++ [StError "Error: La columna 'model_year' no existe en el dataset."],
   inr None).
Proof. apply load_data_no_year. Qed.

(** The loader's coercion of a cell gives the number the specification
    speaks of, and the missing cell when there is none. *)
Lemma to_numeric_coerced_value (c : cell) :
  to_numeric pd c =
  match coerced_value pd c with Some q => Num q | None => NaN end.
Proof. by destruct c. Qed.

Lemma parsable_usable (r : gmap string cell) : parsable pd r ↔ usable pd r.
Proof.
  unfold parsable, usable. apply Forall_iff. intros c.
  rewrite to_numeric_coerced_value.
  destruct (coerced_value pd (cell_at c r)) as [q|]; split; intros Hc.
  - by exists q.
  - done.
  - done.
  - by destruct Hc.
Qed.

Lemma lookup_coerce_row (r : gmap string cell) (c : string) :
  coerce_row pd r !! c =
  if decide (c ∈ numeric_cols) then Some (to_numeric pd (cell_at c r))
  else r !! c.
Proof.
  unfold coerce_row.
  destruct (decide (c = "price")) as [->|Hp].
  { rewrite lookup_insert_eq.
    by rewrite decide_True by (rewrite elem_of_numeric_cols; tauto). }
  rewrite lookup_insert_ne by done.
  destruct (decide (c = "odometer")) as [->|Ho].
  { rewrite lookup_insert_eq.
    by rewrite decide_True by (rewrite elem_of_numeric_cols; tauto). }
  rewrite lookup_insert_ne by done.
  destruct (decide (c = "model_year")) as [->|Hy].
  { rewrite lookup_insert_eq.
    by rewrite decide_True by (rewrite elem_of_numeric_cols; tauto). }
  rewrite lookup_insert_ne by done.
  by rewrite decide_False by (rewrite elem_of_numeric_cols; tauto).
Qed.

Lemma loaded_from_coerce_row (r : gmap string cell) :
  usable pd r → loaded_from pd r (coerce_row pd r).
Proof.
  intros Hr. unfold usable in Hr. rewrite Forall_forall in Hr. split.
  - intros c Hc. destruct (Hr c Hc) as [q Hq]. exists q. split; [done|].
    by rewrite lookup_coerce_row, decide_True, to_numeric_coerced_value, Hq.
  - intros c Hc. by rewrite lookup_coerce_row, decide_False.
Qed.

(** C3. When the table read from the file has the three required columns,
    the loader raises nothing and returns a frame with the same columns.
    Its rows are, one for one and in order, the rows of the table none of
    whose three required cells is missing or fails coercion: in each, every
    required field holds the number its source cell is coerced to, and
    every other field is as in the source. The number of rows is that of
    the table minus the number of rows with at least one required cell
    that is not coerced to a number, each such row counted once. *)
Theorem load_data_drops_unparsable_rows (fs : gmap string file)
    (t : DataFrame) (page : list widget) :
  fs !! csv_path = Some (Table t) →
  numeric_cols ⊆ columns t →
  ∃ d, load_data pd fs page = (page, inr (Some d))
       ∧ columns d = columns t
       ∧ Forall2 (loaded_from pd) (filter (usable pd) (rows t)) (rows d)
       ∧ len d = (len t - length (filter (λ r, ¬ usable pd r) (rows t)))%nat.
Proof.
  intros Hfile Hcols. eexists. split; [by apply load_data_complete|].
  cbn [columns rows]. split; [done|].
  assert (filter (parsable pd) (rows t) = filter (usable pd) (rows t)) as ->
    by (apply list_filter_iff, parsable_usable).
  split.
  - apply Forall2_fmap_r, Forall_Forall2_diag, Forall_forall.
    intros r [Hr _]%list_elem_of_filter. by apply loaded_from_coerce_row.
  - unfold len. cbn [rows]. rewrite length_fmap.
    apply length_filter_complement.
Qed.

(** C10. When the table read from the file has a [model_year] column but
    lacks [odometer] or [price], the loop skips the absent column, the
    drop of incomplete rows raises [KeyError] with the absent labels, and
    the general handler shows the detailed message, which is not the
    message of the missing [model_year] column; the loader returns
    [None]. In every case in which the loader shows an error it returns
    [None], and when it returns a frame the frame is a Dataset. *)
Theorem load_data_without_odometer_or_price (fs : gmap string file)
    (t : DataFrame) (page : list widget) :
  fs !! csv_path = Some (Table t) →
  "model_year" ∈ columns t →
  "odometer" ∉ columns t ∨ "price" ∉ columns t →
  load_data pd fs page =
    (page ++ [StError ("Error al cargar datos: " +:+
                       repr_list (filter (λ c, c ∉ columns t) ["odometer"; "price"]))],
     inr None)
  ∧ load_data pd fs page ≠
    (page ++ [StError "Error: La columna 'model_year' no existe en el dataset."],
     inr None)
  ∧ ∀ fs' page',
      (∃ msg, load_data pd fs' page' = (page' ++ [StError msg], inr None))
      ∨ (∃ d, load_data pd fs' page' = (page', inr (Some d)) ∧ Dataset d).
Proof.
  intros Hfile Hyear Habsent.
  pose proof (load_data_key_error pd fs t page Hfile Hyear Habsent)
    as Hload.
  split; [done|]. split; [|apply load_data_outcome].
  rewrite Hload. intros [= Hpage%app_inv_head]. discriminate Hpage.
Qed.

End LoaderClaims.

Lemma load_data_without_model_year_witness :
  no_year_files !! csv_path = Some (Table no_year_table)
  ∧ ("model_year" ∉ columns no_year_table)
  ∧ load_data digits_only no_year_files [] =
    ([StError "Error: La columna 'model_year' no existe en el dataset."], inr None).
Proof.
  assert (no_year_files !! csv_path = Some (Table no_year_table)) as Hfile
    by reflexivity.
  assert ("model_year" ∉ columns no_year_table) as Hyear
    by (by apply (bool_decide_unpack _)).
  split; [exact Hfile|]. split; [exact Hyear|].
  exact (load_data_without_model_year digits_only no_year_files no_year_table []
           Hfile Hyear).
Defined.

Lemma load_data_drops_unparsable_rows_witness :
  raw_files !! csv_path = Some (Table raw_listings)
  ∧ numeric_cols ⊆ columns raw_listings
  ∧ ∃ d, load_data digits_only raw_files [] = ([], inr (Some d))
         ∧ len raw_listings = 3%nat
         ∧ Forall2 (loaded_from digits_only)
             (filter (usable digits_only) (rows raw_listings)) (rows d)
         ∧ get_column "model_year" d = [Num (Qc_of_Z 2015)]
         ∧ get_column "fuel" d = [Str "gas"].
Proof.
  assert (raw_files !! csv_path = Some (Table raw_listings)) as Hfile
    by reflexivity.
  assert (numeric_cols ⊆ columns raw_listings) as Hcols
    by (by apply (bool_decide_unpack _)).
  split; [exact Hfile|]. split; [exact Hcols|].
  destruct (load_data_drops_unparsable_rows digits_only raw_files raw_listings []
              Hfile Hcols) as (d & Hload & _ & Hrows & _).
  exists d. split; [exact Hload|]. split; [reflexivity|].
  split; [exact Hrows|].
  assert (load_data digits_only raw_files [] =
          ([], inr (Some {| columns := columns raw_listings;
                            rows := [vehicle (Qc_of_Z 2015) (Qc_of_Z 50000)
                                       (Qc_of_Z 10000) "gas"] |}))) as Hrun
    by reflexivity.
  rewrite Hrun in Hload. injection Hload as <-. split; reflexivity.
Defined.

Lemma load_data_without_odometer_or_price_witness :
  no_odometer_files !! csv_path = Some (Table no_odometer_table)
  ∧ "model_year" ∈ columns no_odometer_table
  ∧ ("odometer" ∉ columns no_odometer_table ∨ "price" ∉ columns no_odometer_table)
  ∧ load_data digits_only no_odometer_files [] =
    ([StError "Error al cargar datos: ['odometer']"], inr None).
Proof.
  assert (no_odometer_files !! csv_path = Some (Table no_odometer_table)) as Hfile
    by reflexivity.
  assert ("model_year" ∈ columns no_odometer_table) as Hyear
    by (by apply (bool_decide_unpack _)).
  assert ("odometer" ∉ columns no_odometer_table
          ∨ "price" ∉ columns no_odometer_table) as Habsent
    by (left; by apply (bool_decide_unpack _)).
  split; [exact Hfile|]. split; [exact Hyear|]. split; [exact Habsent|].
  exact (proj1 (load_data_without_odometer_or_price digits_only no_odometer_files
                  no_odometer_table [] Hfile Hyear Habsent)).
Defined.

(** ** The metrics *)

Lemma metrics_without_rows (df : DataFrame) (page : list widget) :
  rows df = [] →
  metrics df page =
  (page ++ [StMetric "Vehículos" (VInt 0)],
   inl (ValueError "cannot convert float NaN to integer")).
Proof.
  intros Hrows. unfold metrics, get_column, len. rewrite Hrows. reflexivity.
Qed.

Lemma series_mean_without_rows (c : string) (df : DataFrame) :
  rows df = [] → series_mean (get_column c df) = None.
Proof. intros Hrows. unfold get_column. by rewrite Hrows. Qed.

(** The worked example: of the two listings only the one of 2018 is in the
    range from 2016 to 2020; one vehicle, mean price 18000. *)
Example worked_example :
  metrics (filtered_df two_listings
             {| selected_years := (Qc_of_Z 2016, Qc_of_Z 2020);
                selected_fuels := [Str "gas"; Str "diesel"];
                selected_conditions := [] |}) [] =
  ([StMetric "Vehículos" (VInt 1); StMetric "Año promedio" (VInt 2018);
    StMetric "Precio promedio" (VStr "$18,000");
    StMetric "Km promedio" (VStr "20,000 km")], inr tt).
Proof. reflexivity. Qed.

(** C1. Over a view without rows the count is shown as 0 and the three
    means are NaN. Lines 90-91 format a NaN mean as the text [nan], but
    line 89 passes the NaN mean year to [int], which raises [ValueError]:
    the block stops after the first metric and shows none of the means. *)
Theorem metrics_on_empty_view_raise (df : DataFrame) (spec : FilterSpec)
    (page : list widget) :
  len (filtered_df df spec) = 0%nat →
  metrics (filtered_df df spec) page =
    (page ++ [StMetric "Vehículos" (VInt 0)],
     inl (ValueError "cannot convert float NaN to integer"))
  ∧ series_mean (get_column "model_year" (filtered_df df spec)) = None
  ∧ series_mean (get_column "price" (filtered_df df spec)) = None
  ∧ series_mean (get_column "odometer" (filtered_df df spec)) = None
  ∧ format_comma_0f None = "nan".
Proof.
  intros Hlen. apply length_zero_iff_nil in Hlen.
  split; [by apply metrics_without_rows|].
  repeat split; by apply series_mean_without_rows.
Qed.

Lemma metrics_on_empty_view_raise_witness :
  len (filtered_df two_listings no_fuel_selected) = 0%nat
  ∧ metrics (filtered_df two_listings no_fuel_selected) [] =
    ([StMetric "Vehículos" (VInt 0)],
     inl (ValueError "cannot convert float NaN to integer")).
Proof.
  assert (len (filtered_df two_listings no_fuel_selected) = 0%nat) as Hlen
    by reflexivity.
  split; [exact Hlen|].
  exact (proj1 (metrics_on_empty_view_raise two_listings no_fuel_selected [] Hlen)).
Defined.

(** ** Names and objects *)

Lemma fresh_object_unused (m : memory) :
  objects m !! fresh (dom (objects m)) = None.
Proof. apply not_elem_of_dom, is_fresh. Qed.

Lemma value_of_bound (name : string) (m : memory) (l : nat) (d : DataFrame) :
  names m !! name = Some l → objects m !! l = Some d → value_of name m = Some d.
Proof. intros Hname Hobj. unfold value_of. by rewrite Hname. Qed.

(** What one selection statement changes: it binds [target] to an object
    that did not exist, and leaves the objects that exist and the other
    names as they are. *)
Lemma assign_selection_frame (target source : string)
    (mask : DataFrame → list bool) (m : memory) (ls : nat) (d : DataFrame) :
  names m !! source = Some ls →
  objects m !! ls = Some d →
  ∃ m' l', assign_selection target source mask m = Some m'
           ∧ names m' !! target = Some l'
           ∧ objects m !! l' = None
           ∧ objects m' !! l' = Some (boolean_index d (mask d))
           ∧ (∀ k v, objects m !! k = Some v → objects m' !! k = Some v)
           ∧ (∀ name, name ≠ target → names m' !! name = names m !! name).
Proof.
  intros Hname Hobj. unfold assign_selection.
  rewrite (value_of_bound source m ls d) by done. cbn [mbind option_bind].
  eexists _, (fresh (dom (objects m))). split; [done|]. cbn [names objects].
  pose proof (fresh_object_unused m) as Hfresh.
  repeat split.
  - by rewrite lookup_insert_eq.
  - done.
  - by rewrite lookup_insert_eq.
  - intros k v Hk. rewrite lookup_insert_ne; [done|].
    intros <-. by rewrite Hfresh in Hk.
  - intros name Hne. by rewrite lookup_insert_ne.
Qed.

(** Either kind of step of lines 79-83: a further selection when the column
    exists, nothing otherwise. *)
Lemma optional_selection_frame (present : bool) (mask : DataFrame → list bool)
    (m : memory) (l0 : nat) (v : DataFrame) :
  names m !! "filtered_df" = Some l0 →
  objects m !! l0 = Some v →
  ∃ m' l', (if present then assign_selection "filtered_df" "filtered_df" mask m
            else Some m) = Some m'
           ∧ names m' !! "filtered_df" = Some l'
           ∧ (l' = l0 ∨ objects m !! l' = None)
           ∧ objects m' !! l' = Some (if present then boolean_index v (mask v) else v)
           ∧ (∀ k w, objects m !! k = Some w → objects m' !! k = Some w)
           ∧ (∀ name, name ≠ "filtered_df" → names m' !! name = names m !! name).
Proof.
  intros Hname Hobj. destruct present.
  - destruct (assign_selection_frame "filtered_df" "filtered_df" mask m l0 v)
      as (m' & l' & ? & ? & ? & ? & ? & ?); [done..|].
    exists m', l'. auto 10.
  - exists m, l0. auto 10.
Qed.

(** The object bound to [df] after a statement that assigns [filtered_df]. *)
Lemma df_kept (m m' : memory) (l : nat) (d : DataFrame) :
  names m !! "df" = Some l →
  objects m !! l = Some d →
  (∀ k v, objects m !! k = Some v → objects m' !! k = Some v) →
  (∀ name, name ≠ "filtered_df" → names m' !! name = names m !! name) →
  names m' !! "df" = Some l ∧ objects m' !! l = Some d ∧ value_of "df" m' = Some d.
Proof.
  intros Hname Hobj Hobjs Hnames.
  assert (names m' !! "df" = Some l) as Hname' by (by rewrite Hnames).
  assert (objects m' !! l = Some d) as Hobj' by (by apply Hobjs).
  repeat split; try done. by apply (value_of_bound "df" m' l d).
Qed.

(** C9. Running lines 77-83 rebinds only [filtered_df]: the name [df] is
    bound to the same object as before, that object and every other object
    that existed hold the same columns and rows as before, and [filtered_df]
    is bound to another object, which holds the view. *)
Theorem apply_filters_leaves_df (spec : FilterSpec) (m : memory) (l : nat)
    (d : DataFrame) :
  names m !! "df" = Some l →
  objects m !! l = Some d →
  ∃ m', apply_filters spec m = Some m'
        ∧ names m' !! "df" = Some l
        ∧ objects m' !! l = Some d
        ∧ (∀ k v, objects m !! k = Some v → objects m' !! k = Some v)
        ∧ (∃ l', names m' !! "filtered_df" = Some l' ∧ l' ≠ l
                 ∧ objects m' !! l' = Some (filtered_df d spec)).
Proof.
  intros Hname Hobj. unfold apply_filters.
  edestruct (assign_selection_frame "filtered_df" "df") as
    (m1 & l1 & -> & Hl1 & Hnew1 & Hv1 & Hobjs1 & Hnames1); [done..|].
  cbn [mbind option_bind].
  destruct (df_kept m m1 l d Hname Hobj Hobjs1 Hnames1) as (Hname1 & Hobj1 & ->).
  cbn [mbind option_bind].
  edestruct (optional_selection_frame (has_column "fuel" d)) as
    (m2 & l2 & -> & Hl2 & Hnew2 & Hv2 & Hobjs2 & Hnames2); [done..|].
  cbn [mbind option_bind].
  destruct (df_kept m1 m2 l d Hname1 Hobj1 Hobjs2 Hnames2) as (Hname2 & Hobj2 & ->).
  cbn [mbind option_bind].
  edestruct (optional_selection_frame (has_column "condition" d)) as
    (m3 & l3 & -> & Hl3 & Hnew3 & Hv3 & Hobjs3 & Hnames3); [done..|].
  destruct (df_kept m2 m3 l d Hname2 Hobj2 Hobjs3 Hnames3) as (Hname3 & Hobj3 & _).
  assert (l1 ≠ l) as Hne1 by congruence.
  assert (l2 ≠ l) as Hne2 by (destruct Hnew2; congruence).
  assert (l3 ≠ l) as Hne3 by (destruct Hnew3; congruence).
  exists m3. split; [done|]. split; [done|]. split; [done|].
  split; [by auto|]. by exists l3.
Qed.

Lemma apply_filters_leaves_df_witness :
  names sample_memory !! "df" = Some 0%nat
  ∧ objects sample_memory !! 0%nat = Some two_listings
  ∧ ∃ m', apply_filters no_fuel_selected sample_memory = Some m'
          ∧ names m' !! "df" = Some 0%nat
          ∧ objects m' !! 0%nat = Some two_listings.
Proof.
  assert (names sample_memory !! "df" = Some 0%nat) as Hname by reflexivity.
  assert (objects sample_memory !! 0%nat = Some two_listings) as Hobj
    by reflexivity.
  split; [exact Hname|]. split; [exact Hobj|].
  destruct (apply_filters_leaves_df no_fuel_selected sample_memory 0%nat
              two_listings Hname Hobj) as (m' & Hrun & Hname' & Hobj' & _).
  exists m'. auto.
Defined.

(** ** The loader on files that are missing, unreadable or already clean *)

Section LoaderEdges.

Variable pd : numeric_conversion.

(** X1. When the file is not there, the loader shows the message that the
    file was not found and returns [None]; nothing is raised. *)
Theorem load_data_file_missing (fs : gmap string file) (page : list widget) :
  fs !! csv_path = None →
  load_data pd fs page =
  (page ++ [StError "Error: Archivo 'vehicles_us.csv' no encontrado en la carpeta 'data'"],
   inr None).
Proof.
  intros Hfile.
  unfold load_data, try_except, mbind, script_bind, lift, read_csv.
  unfold csv_path in Hfile. by rewrite Hfile.
Qed.

(** X2. When the reader rejects the file, the general handler shows its
    message followed by the text of the reader's exception, and the loader
    returns [None]; nothing is raised. *)
Theorem load_data_unreadable (fs : gmap string file) (detail : string)
    (page : list widget) :
  fs !! csv_path = Some (Unreadable detail) →
  load_data pd fs page =
  (page ++ [StError ("Error al cargar datos: " +:+ detail)], inr None).
Proof.
  intros Hfile.
  unfold load_data, try_except, mbind, script_bind, lift, read_csv.
  unfold csv_path in Hfile. by rewrite Hfile.
Qed.

Lemma number_cell_lookup (c : string) (r : gmap string cell) :
  is_number (cell_at c r) → ∃ q, r !! c = Some (Num q).
Proof.
  unfold cell_at. destruct (r !! c) as [[|q|s]|]; cbn; try done. by exists q.
Qed.

(** A row whose three required cells are numbers of the numeric type is
    left as it is. *)
Lemma coerce_row_numbers (r : gmap string cell) :
  Forall (λ c, is_number (cell_at c r)) numeric_cols →
  Forall (λ c, ∀ q, cell_at c r = Num q → to_float pd q = q) numeric_cols →
  coerce_row pd r = r ∧ parsable pd r.
Proof.
  intros Hnum Hfloat. split.
  - apply map_eq. intros c. rewrite lookup_coerce_row. case_decide as Hc; [|done].
    rewrite Forall_forall in Hnum, Hfloat.
    destruct (number_cell_lookup c r (Hnum c Hc)) as [q Hq].
    assert (cell_at c r = Num q) as Hcell by (unfold cell_at; by rewrite Hq).
    rewrite Hcell, Hq. cbn. by rewrite (Hfloat c Hc q Hcell).
  - unfold parsable. eapply Forall_impl; [exact Hnum|]. intros c. cbn beta.
    destruct (cell_at c r) as [|q|s]; cbn; [done| |done].
    intros _. discriminate.
Qed.

(** X3. A table that already is a Dataset whose required numbers are values
    of the numeric type, which the conversion returns as they are, is loaded
    as it is: the loader shows nothing and returns the same columns and the
    same rows. *)
Theorem load_data_keeps_dataset (fs : gmap string file) (t : DataFrame)
    (page : list widget) :
  fs !! csv_path = Some (Table t) →
  Dataset t →
  Forall (λ r, Forall (λ c, ∀ q, cell_at c r = Num q → to_float pd q = q)
                 numeric_cols) (rows t) →
  load_data pd fs page = (page, inr (Some t)).
Proof.
  intros Hfile [Hcols Hrows] Hfloat.
  rewrite (load_data_complete pd fs t page Hfile Hcols).
  do 3 f_equal. apply frame_eq; [done|]. cbn [rows].
  rewrite Forall_forall in Hrows, Hfloat.
  rewrite filter_all.
  - rewrite <-(list_fmap_id (rows t)) at 2. apply list_fmap_ext.
    intros _ r Hr%list_elem_of_lookup_2.
    by apply coerce_row_numbers; [apply Hrows | apply Hfloat].
  - apply Forall_forall. intros r Hr.
    by apply coerce_row_numbers; [apply Hrows | apply Hfloat].
Qed.

(** Coercing a cell a second time changes nothing. *)
Lemma to_numeric_idem (c : cell) :
  to_numeric pd (to_numeric pd c) = to_numeric pd c.
Proof.
  destruct c as [|q|s]; cbn.
  - done.
  - by rewrite to_float_idem.
  - destruct (parse_number pd s) as [q|] eqn:Hs; cbn; [|done].
    by rewrite (parse_number_float pd s q Hs).
Qed.

Lemma cell_at_coerce_row_required (r : gmap string cell) (c : string) :
  c ∈ numeric_cols → cell_at c (coerce_row pd r) = to_numeric pd (cell_at c r).
Proof. intros Hc. by rewrite cell_at_coerce_row, decide_True. Qed.

Lemma coerce_row_idem (r : gmap string cell) :
  coerce_row pd (coerce_row pd r) = coerce_row pd r.
Proof.
  apply map_eq. intros c. rewrite !lookup_coerce_row.
  case_decide as Hc; [|done].
  by rewrite cell_at_coerce_row_required, to_numeric_idem.
Qed.

Lemma parsable_coerce_row (r : gmap string cell) :
  parsable pd r → parsable pd (coerce_row pd r).
Proof.
  unfold parsable. rewrite !Forall_forall. intros Hr c Hc.
  rewrite cell_at_coerce_row_required, to_numeric_idem by done. by apply Hr.
Qed.

(** A frame the loader returns comes from a table with the three required
    columns. *)
Lemma load_data_loaded (fs : gmap string file) (d : DataFrame)
    (page page' : list widget) :
  load_data pd fs page = (page', inr (Some d)) →
  ∃ t, numeric_cols ⊆ columns t
       ∧ d = {| columns := columns t;
                rows := coerce_row pd <$> filter (parsable pd) (rows t) |}.
Proof.
  intros Hload.
  destruct (fs !! csv_path) as [[detail|t]|] eqn:Hfile.
  - rewrite (load_data_unreadable fs detail page Hfile) in Hload. done.
  - destruct (decide ("model_year" ∈ columns t)) as [Hy|Hy];
      [|by rewrite (load_data_no_year pd fs t page Hfile Hy) in Hload].
    destruct (decide ("odometer" ∈ columns t)) as [Ho|Ho];
      [|by rewrite (load_data_key_error pd fs t page Hfile Hy (or_introl Ho))
           in Hload].
    destruct (decide ("price" ∈ columns t)) as [Hp|Hp];
      [|by rewrite (load_data_key_error pd fs t page Hfile Hy (or_intror Hp))
           in Hload].
    assert (numeric_cols ⊆ columns t) as Hcols
      by (by apply numeric_cols_subseteq).
    rewrite (load_data_complete pd fs t page Hfile Hcols) in Hload.
    exists t. split; [done|]. congruence.
  - rewrite (load_data_file_missing fs page Hfile) in Hload. done.
Qed.

(** X4. Loading is stable: when the loader returns a frame, loading a file
    that holds that frame returns it unchanged and shows nothing. *)
Theorem load_data_reload (fs fs' : gmap string file) (d : DataFrame)
    (page page' page2 : list widget) :
  load_data pd fs page = (page', inr (Some d)) →
  fs' !! csv_path = Some (Table d) →
  load_data pd fs' page2 = (page2, inr (Some d)).
Proof.
  intros Hload Hfile.
  destruct (load_data_loaded fs d page page' Hload) as (t & Hcols & ->).
  rewrite (load_data_complete pd fs' _ page2 Hfile) by done.
  do 3 f_equal. apply frame_eq; [done|]. cbn [rows].
  rewrite filter_all.
  - rewrite <-list_fmap_compose. apply list_fmap_ext.
    intros _ r _. apply coerce_row_idem.
  - apply Forall_fmap, Forall_forall. intros r [Hr _]%list_elem_of_filter.
    by apply parsable_coerce_row.
Qed.

End LoaderEdges.

(** ** How the filters compose *)

Lemma filter_sublist_impl {A} (P Q : A → Prop)
    `{!∀ x, Decision (P x)} `{!∀ x, Decision (Q x)} (l : list A) :
  (∀ x, P x → Q x) → filter P l `sublist_of` filter Q l.
Proof.
  intros Himpl. induction l as [|a l IH]; [done|].
  rewrite !filter_cons. destruct (decide (P a)) as [HP|HP].
  - rewrite decide_True by auto. by constructor.
  - case_decide; [by constructor | done].
Qed.

Lemma in_view_columns (df df' : DataFrame) (spec : FilterSpec)
    (r : gmap string cell) :
  columns df' = columns df → in_view df' spec r ↔ in_view df spec r.
Proof. intros Hcols. unfold in_view. by rewrite Hcols. Qed.

(** X5. The view of a Dataset is again a Dataset, its rows are rows of the
    Dataset in their order, and it has at most as many rows. *)
Theorem filtered_df_dataset (df : DataFrame) (spec : FilterSpec) :
  Dataset df →
  Dataset (filtered_df df spec)
  ∧ rows (filtered_df df spec) `sublist_of` rows df
  ∧ (len (filtered_df df spec) ≤ len df)%nat.
Proof.
  intros [Hcols Hrows].
  assert (rows (filtered_df df spec) `sublist_of` rows df) as Hsub.
  { rewrite filtered_df_rows. apply sublist_filter. }
  split; [split|split].
  - by rewrite filtered_df_columns.
  - rewrite Forall_forall in Hrows. apply Forall_forall. intros r Hr.
    apply Hrows. eapply sublist_subseteq; [exact Hsub|exact Hr].
  - done.
  - unfold len. by apply sublist_length.
Qed.

(** X6. Narrowing a selection can only remove rows. When the year range of
    [narrow] lies inside that of [wide] and its selected fuels and
    conditions are among those of [wide], the view under [narrow] is a
    subsequence of the view under [wide], and filtering the wide view with
    [narrow] gives the view under [narrow]. *)
Theorem filtered_df_narrowing (df : DataFrame) (wide narrow : FilterSpec) :
  (fst (selected_years wide) ≤ fst (selected_years narrow))%Qc →
  (snd (selected_years narrow) ≤ snd (selected_years wide))%Qc →
  selected_fuels narrow ⊆ selected_fuels wide →
  selected_conditions narrow ⊆ selected_conditions wide →
  rows (filtered_df df narrow) `sublist_of` rows (filtered_df df wide)
  ∧ filtered_df (filtered_df df wide) narrow = filtered_df df narrow.
Proof.
  intros Hlo Hhi Hfuels Hconds.
  assert (∀ r, in_view df narrow r → in_view df wide r) as Himpl.
  { intros r (Hyear & Hfuel & Hcond). split; [|split].
    - revert Hyear. unfold year_within. destruct (modelYear r); [|done].
      intros [??]. split; by etrans.
    - destruct Hfuel; [by left | right; by apply Hfuels].
    - destruct Hcond; [by left | right; by apply Hconds]. }
  split.
  - rewrite !filtered_df_rows. by apply filter_sublist_impl.
  - apply frame_eq; [by rewrite !filtered_df_columns|].
    rewrite (filtered_df_rows (filtered_df df wide)).
    rewrite !(filtered_df_rows df), list_filter_filter.
    apply list_filter_iff. intros r.
    rewrite (in_view_columns df (filtered_df df wide))
      by apply filtered_df_columns.
    split; [by intros [??] | intros ?; split; [done | by apply Himpl]].
Qed.

(** X7. Two specifications can be applied in either order: filtering with
    one and then with the other gives the same frame both ways. *)
Theorem filtered_df_commute (df : DataFrame) (spec1 spec2 : FilterSpec) :
  filtered_df (filtered_df df spec1) spec2 =
  filtered_df (filtered_df df spec2) spec1.
Proof.
  apply frame_eq; [by rewrite !filtered_df_columns|].
  rewrite (filtered_df_rows (filtered_df df spec1)).
  rewrite (filtered_df_rows (filtered_df df spec2)).
  rewrite !(filtered_df_rows df), !list_filter_filter.
  apply list_filter_iff. intros r.
  rewrite (in_view_columns df (filtered_df df spec1))
    by apply filtered_df_columns.
  rewrite (in_view_columns df (filtered_df df spec2))
    by apply filtered_df_columns.
  tauto.
Qed.

(** ** The options of the multiselects *)

Lemma elem_of_unique_from_inv (seen s : list cell) (c : cell) :
  c ∈ unique_from seen s → c ∈ s ∧ c ∉ seen.
Proof.
  revert seen. induction s as [|a s IH]; intros seen; cbn [unique_from].
  - by intros ?%not_elem_of_nil.
  - case_bool_decide as Ha.
    + intros [??]%IH. split; [by right | done].
    + intros [->|[Hs Hseen]%IH]%elem_of_cons.
      * split; [by left | done].
      * split; [by right|]. intros ?. apply Hseen. by right.
Qed.

Lemma NoDup_unique_from (seen s : list cell) : NoDup (unique_from seen s).
Proof.
  revert seen. induction s as [|a s IH]; intros seen; cbn [unique_from].
  - constructor.
  - case_bool_decide; [apply IH|]. constructor; [|apply IH].
    intros [_ Hseen]%elem_of_unique_from_inv. apply Hseen. by left.
Qed.

(** X8. The options offered for fuel and for condition are the cells of the
    column, each once: no option is repeated, every option occurs in the
    column and every cell of the column is an option. *)
Theorem fuel_types_conditions_distinct (df : DataFrame) :
  NoDup (fuel_types df)
  ∧ (∀ c, c ∈ fuel_types df ↔ c ∈ get_column "fuel" df)
  ∧ NoDup (conditions df)
  ∧ (∀ c, c ∈ conditions df ↔ c ∈ get_column "condition" df).
Proof.
  unfold fuel_types, conditions, unique.
  repeat split; try apply NoDup_unique_from;
    try (by intros [??]%elem_of_unique_from_inv); apply elem_of_unique.
Qed.

(** ** The ends of the year slider *)

(** [int] keeps the order of the numbers it truncates. *)
Lemma py_int_mono (a b : Qc) (za zb : Z) :
  (a ≤ b)%Qc → py_int (Some a) = inr za → py_int (Some b) = inr zb → za ≤ zb.
Proof.
  intros Hle [= <-] [= <-]. unfold Qcle, Qle in Hle.
  rewrite <-(Z.quot_mul_cancel_r (Qnum a) (Z.pos (Qden a)) (Z.pos (Qden b)))
    by done.
  rewrite <-(Z.quot_mul_cancel_r (Qnum b) (Z.pos (Qden b)) (Z.pos (Qden a)))
    by done.
  rewrite (Z.mul_comm (Z.pos (Qden b)) (Z.pos (Qden a))).
  apply Z.quot_le_mono; [done | done].
Qed.

(** On a number that is not negative [int] rounds down, by less than 1. *)
Lemma py_int_nonneg (q : Qc) (z : Z) :
  (0 ≤ q)%Qc → py_int (Some q) = inr z →
  (Qc_of_Z z ≤ q)%Qc ∧ (q < Qc_of_Z (z + 1))%Qc.
Proof.
  intros Hq [= <-]. unfold Qcle, Qclt, Qle, Qlt in *. cbn in *.
  change (Qred 0) with (0 # 1)%Q in Hq. cbn in Hq.
  assert (0 ≤ Qnum q) as Hn by lia.
  rewrite Z.quot_div_nonneg by lia.
  pose proof (Z.div_mod (Qnum q) (Z.pos (Qden q)) ltac:(lia)) as Hdiv.
  pose proof (Z.mod_pos_bound (Qnum q) (Z.pos (Qden q)) ltac:(lia)) as Hmod.
  nia.
Qed.

Lemma foldl_Qc_min_lower (l : list Qc) (x b : Qc) :
  (b ≤ x)%Qc → (∀ q, q ∈ l → (b ≤ q)%Qc) → (b ≤ foldl Qc_min x l)%Qc.
Proof.
  revert x. induction l as [|a l IH]; intros x Hx Hl; [done|].
  cbn [foldl]. apply IH.
  - unfold Qc_min. case_decide; [done|]. apply Hl. by left.
  - intros q Hq. apply Hl. by right.
Qed.

Lemma series_min_lower (s : list cell) (m b : Qc) :
  series_min s = Some m → (∀ q, Num q ∈ s → (b ≤ q)%Qc) → (b ≤ m)%Qc.
Proof.
  unfold series_min. intros Hmin Hall.
  assert (∀ q, q ∈ numbers s → (b ≤ q)%Qc) as Hnum
    by (intros q Hq; by apply Hall, elem_of_numbers).
  destruct (numbers s) as [|x l]; [done|]. injection Hmin as <-.
  apply foldl_Qc_min_lower.
  - apply Hnum. by left.
  - intros q Hq. apply Hnum. by right.
Qed.

Lemma series_min_max_ordered (s : list cell) (lo hi : Qc) :
  series_min s = Some lo → series_max s = Some hi → (lo ≤ hi)%Qc.
Proof.
  intros Hmin Hmax.
  assert (∃ q, Num q ∈ s) as [q Hq].
  { unfold series_min in Hmin. destruct (numbers s) as [|x l] eqn:Hn; [done|].
    exists x. apply elem_of_numbers. rewrite Hn. by left. }
  etrans; [by eapply series_min_le | by eapply series_max_ge].
Qed.

Lemma py_int_returns (x : option Qc) (z : Z) :
  py_int x = inr z → ∃ q, x = Some q ∧ py_int (Some q) = inr z.
Proof. destruct x as [q|]; [|done]. intros Hz. by exists q. Qed.

(** X9. Whenever both ends of the year slider are computed, that is, [int]
    raises on neither the least nor the greatest year, the lower end is not
    above the upper end. *)
Theorem slider_ends_ordered (df : DataFrame) (lo hi : Z) :
  min_year df = inr lo →
  max_year df = inr hi →
  lo ≤ hi.
Proof.
  unfold min_year, max_year.
  intros (qlo & Hmin & Hlo)%py_int_returns (qhi & Hmax & Hhi)%py_int_returns.
  eapply py_int_mono; [|exact Hlo|exact Hhi].
  by eapply series_min_max_ordered.
Qed.

(** X10. Whenever both ends of the year slider are computed for a Dataset
    without a negative year, the year of every row is at least the lower
    end and less than the upper end plus one: truncation can leave out only
    years with a fractional part beyond the upper end. *)
Theorem slider_ends_within_one (df : DataFrame) (lo hi : Z) :
  Dataset df →
  min_year df = inr lo →
  max_year df = inr hi →
  Forall (λ r, ∀ y, modelYear r = Some y → (0 ≤ y)%Qc) (rows df) →
  Forall (λ r, ∃ y, modelYear r = Some y
                    ∧ (Qc_of_Z lo ≤ y)%Qc ∧ (y < Qc_of_Z (hi + 1))%Qc)
    (rows df).
Proof.
  unfold min_year, max_year.
  intros Hds (qlo & Hmin & Hqlo)%py_int_returns
    (qhi & Hmax & Hqhi)%py_int_returns Hpos.
  pose proof (years_within_min_max df qlo qhi Hds Hmin Hmax) as Hyears.
  assert (0 ≤ qlo)%Qc as Hlo0.
  { eapply series_min_lower; [exact Hmin|]. intros q Hq.
    apply list_elem_of_fmap in Hq as (r & Hcell & Hr).
    rewrite Forall_forall in Hpos. apply (Hpos r Hr).
    unfold modelYear. by rewrite <-Hcell. }
  assert (0 ≤ qhi)%Qc as Hhi0
    by (etrans; [exact Hlo0 | by eapply series_min_max_ordered]).
  destruct (py_int_nonneg qlo lo Hlo0 Hqlo) as [Hlo _].
  destruct (py_int_nonneg qhi hi Hhi0 Hqhi) as [_ Hhi].
  eapply Forall_impl; [exact Hyears|]. intros r. unfold year_within.
  destruct (modelYear r) as [y|]; [|done]. intros [Hly Hyh].
  exists y. split; [done|]. split; [by etrans|].
  eapply Qcle_lt_trans; [exact Hyh | exact Hhi].
Qed.

(** ** The mean year of a view with rows *)

Lemma Qc_of_nat_succ (n : nat) :
  Qc_of_Z (Z.of_nat (S n)) = (Qc_of_Z (Z.of_nat n) + 1)%Qc.
Proof. by rewrite Nat2Z.inj_succ, <-Z.add_1_r, Z2Qc_inj_add, Z2Qc_inj_1. Qed.

Lemma foldl_Qcplus_lower (l : list Qc) (acc a : Qc) :
  (∀ q, q ∈ l → a ≤ q)%Qc →
  (acc + a * Qc_of_Z (Z.of_nat (length l)) ≤ foldl Qcplus acc l)%Qc.
Proof.
  revert acc. induction l as [|x l IH]; intros acc Hall; cbn [foldl length].
  - change (Z.of_nat 0) with 0.
    rewrite Z2Qc_inj_0, Qcmult_0_r, Qcplus_0_r. done.
  - etrans; [|apply IH; intros q Hq; apply Hall; by right].
    rewrite Qc_of_nat_succ.
    replace (acc + a * (Qc_of_Z (Z.of_nat (length l)) + 1))%Qc
      with ((acc + a) + a * Qc_of_Z (Z.of_nat (length l)))%Qc by ring.
    apply Qcplus_le_compat; [|done].
    apply Qcplus_le_compat; [done|]. apply Hall. by left.
Qed.

Lemma foldl_Qcplus_upper (l : list Qc) (acc b : Qc) :
  (∀ q, q ∈ l → q ≤ b)%Qc →
  (foldl Qcplus acc l ≤ acc + b * Qc_of_Z (Z.of_nat (length l)))%Qc.
Proof.
  revert acc. induction l as [|x l IH]; intros acc Hall; cbn [foldl length].
  - change (Z.of_nat 0) with 0.
    rewrite Z2Qc_inj_0, Qcmult_0_r, Qcplus_0_r. done.
  - etrans; [apply IH; intros q Hq; apply Hall; by right|].
    rewrite Qc_of_nat_succ.
    replace (acc + b * (Qc_of_Z (Z.of_nat (length l)) + 1))%Qc
      with ((acc + b) + b * Qc_of_Z (Z.of_nat (length l)))%Qc by ring.
    apply Qcplus_le_compat; [|done].
    apply Qcplus_le_compat; [done|]. apply Hall. by left.
Qed.

(** The mean of a column lies between any two bounds of its numbers. *)
Lemma series_mean_between (s : list cell) (m a b : Qc) :
  series_mean s = Some m →
  (∀ q, Num q ∈ s → a ≤ q ∧ q ≤ b)%Qc →
  (a ≤ m ∧ m ≤ b)%Qc.
Proof.
  unfold series_mean. intros Hmean Hall.
  assert (∀ q, q ∈ numbers s → a ≤ q ∧ q ≤ b)%Qc as Hnum
    by (intros q Hq; by apply Hall, elem_of_numbers).
  destruct (numbers s) as [|x l]; [done|]. injection Hmean as <-.
  set (n := Qc_of_Z (Z.of_nat (length (x :: l)))).
  assert (0 < n)%Qc as Hn.
  { unfold n. rewrite <-Z2Qc_inj_0.
    apply (proj1 (Z2Qc_inj_lt 0 (Z.of_nat (length (x :: l))))).
    cbn [length]. lia. }
  assert (n ≠ 0%Qc) as Hn0 by (intros Heq; rewrite Heq in Hn; by destruct (Qclt_not_eq 0 0)).
  assert (foldl Qcplus x l / n * n = foldl Qcplus x l)%Qc as Hcancel
    by (rewrite Qcmult_comm; by apply Qcmult_div_r).
  assert (a * n ≤ foldl Qcplus x l)%Qc as Hlo.
  { etrans; [|apply (foldl_Qcplus_lower l x a); intros q Hq; apply Hnum; by right].
    unfold n. cbn [length]. rewrite Qc_of_nat_succ.
    replace (a * (Qc_of_Z (Z.of_nat (length l)) + 1))%Qc
      with (a + a * Qc_of_Z (Z.of_nat (length l)))%Qc by ring.
    apply Qcplus_le_compat; [|done]. apply Hnum. by left. }
  assert (foldl Qcplus x l ≤ b * n)%Qc as Hhi.
  { etrans; [apply (foldl_Qcplus_upper l x b); intros q Hq; apply Hnum; by right|].
    unfold n. cbn [length]. rewrite Qc_of_nat_succ.
    replace (b * (Qc_of_Z (Z.of_nat (length l)) + 1))%Qc
      with (b + b * Qc_of_Z (Z.of_nat (length l)))%Qc by ring.
    apply Qcplus_le_compat; [|done]. apply Hnum. by left. }
  split; apply (Qcmult_lt_0_le_reg_r _ _ n Hn);
    change (Qc_of_Z (Z.of_nat (S (length l)))) with n; by rewrite Hcancel.
Qed.

(** In a Dataset with a row every required column has a mean. *)
Lemma dataset_mean (v : DataFrame) (c : string) :
  Dataset v → rows v ≠ [] → c ∈ numeric_cols →
  ∃ m, series_mean (get_column c v) = Some m.
Proof.
  intros [_ Hnum] Hrows Hc. unfold series_mean, get_column.
  destruct (rows v) as [|r rs]; [done|].
  apply Forall_cons_1 in Hnum as [Hr _].
  rewrite Forall_forall in Hr. specialize (Hr c Hc).
  cbn [fmap list_fmap numbers omap list_omap].
  destruct (cell_at c r) as [|q|]; [done| |done]. by eexists.
Qed.

(** X12. When the selected year range has whole ends, as the slider gives
    them, and the view of a Dataset has at least one row, the average year
    shown lies within the selected range. *)
Theorem average_year_in_selected_range (df : DataFrame) (spec : FilterSpec)
    (lo hi : Z) :
  Dataset df →
  selected_years spec = (Qc_of_Z lo, Qc_of_Z hi) →
  rows (filtered_df df spec) ≠ [] →
  ∃ avg_year,
    py_int (series_mean (get_column "model_year" (filtered_df df spec)))
      = inr avg_year
    ∧ lo ≤ avg_year ≤ hi.
Proof.
  intros Hds Hyears Hrows.
  assert (Dataset (filtered_df df spec)) as Hview.
  { destruct Hds as [Hcols Hnum]. split; [by rewrite filtered_df_columns|].
    rewrite filtered_df_rows. rewrite Forall_forall in Hnum.
    apply Forall_forall. intros r [_ Hr]%list_elem_of_filter. by apply Hnum. }
  destruct (dataset_mean _ "model_year" Hview Hrows) as [m Hm];
    [apply elem_of_numeric_cols; tauto|].
  rewrite Hm. eexists. split; [reflexivity|].
  assert (Qc_of_Z lo ≤ m ∧ m ≤ Qc_of_Z hi)%Qc as [Hlo Hhi].
  { eapply series_mean_between; [exact Hm|]. intros q Hq.
    apply list_elem_of_fmap in Hq as (r & Hcell & Hr).
    rewrite filtered_df_rows in Hr.
    apply list_elem_of_filter in Hr as [(Hyear & _) _].
    rewrite Hyears in Hyear. cbn [fst snd] in Hyear.
    unfold year_within, modelYear in Hyear. by rewrite <-Hcell in Hyear. }
  split.
  - eapply (py_int_mono (Qc_of_Z lo) m); [done| apply py_int_whole | done].
  - eapply (py_int_mono m (Qc_of_Z hi)); [done| done | apply py_int_whole].
Qed.

(** X13. The rounding behind the formatted means goes to a nearest whole
    number and, half-way between two, to the even one: for the number
    [n/d] in lowest terms the result [r] satisfies [2 |n - r d| ≤ d], and
    [r] is even when equality holds. *)
Theorem round_half_even_nearest (q : Qc) :
  2 * Z.abs (Qnum q - round_half_even q * Z.pos (Qden q)) ≤ Z.pos (Qden q)
  ∧ (2 * Z.abs (Qnum q - round_half_even q * Z.pos (Qden q)) = Z.pos (Qden q)
     → Z.even (round_half_even q) = true).
Proof.
  unfold round_half_even.
  pose proof (Z.div_mod (Qnum q) (Z.pos (Qden q)) ltac:(lia)) as Hdiv.
  pose proof (Z.mod_pos_bound (Qnum q) (Z.pos (Qden q)) ltac:(lia)) as Hmod.
  set (n := Qnum q) in *. set (d := Z.pos (Qden q)) in *.
  set (f := n `div` d) in *. set (m := n `mod` d) in *.
  assert (n - f * d = m) as Hf by lia.
  assert (n - (f + 1) * d = m - d) as Hf1 by lia.
  destruct (Z.compare_spec (2 * m) d) as [Heq|Hlt|Hgt].
  - destruct (Z.even f) eqn:Heven.
    + rewrite Hf. split; [lia | done].
    + rewrite Hf1. split; [lia|]. intros _.
      by rewrite Z.add_1_r, Z.even_succ, <-Z.negb_even, Heven.
  - rewrite Hf. split; lia.
  - rewrite Hf1. split; lia.
Qed.

(** ** The arguments of the charts *)

(** X14. The histogram asks its frame only for columns the frame has: the
    odometer, and the fuel as colour exactly when the Dataset has a fuel
    column. *)
Theorem histogram_columns_exist (df : DataFrame) (spec : FilterSpec) :
  Dataset df →
  figure_columns (fig_hist df (filtered_df df spec))
  ⊆ columns (figure_frame (fig_hist df (filtered_df df spec))).
Proof.
  intros [(_ & Ho & _)%numeric_cols_subseteq _].
  cbn [fig_hist figure_frame figure_columns]. rewrite filtered_df_columns.
  unfold has_column. case_bool_decide; cbn [option_list];
    intros c Hc;
    repeat (apply elem_of_cons in Hc as [->|Hc]; [done|]);
    by apply not_elem_of_nil in Hc.
Qed.

(** X15. The scatter plot takes the condition as colour when the Dataset
    has that column and the fuel otherwise, whether or not a fuel column
    exists: the columns it asks its frame for all exist exactly when the
    Dataset has a condition or a fuel column. *)
Theorem scatter_columns_exist (df : DataFrame) (spec : FilterSpec) :
  Dataset df →
  figure_columns (fig_scatter df (filtered_df df spec))
  ⊆ columns (figure_frame (fig_scatter df (filtered_df df spec)))
  ↔ "condition" ∈ columns df ∨ "fuel" ∈ columns df.
Proof.
  intros [(_ & Ho & Hp)%numeric_cols_subseteq _].
  cbn [fig_scatter figure_frame figure_columns]. rewrite filtered_df_columns.
  unfold has_column. split.
  - intros Hsub. case_bool_decide as Hc; [by left|]. right.
    apply Hsub. cbn [option_list app]. do 2 right. left.
  - intros Hcol c Hc. do 2 case_bool_decide; cbn [option_list app] in Hc;
      repeat (apply elem_of_cons in Hc as [->|Hc]; [tauto|]);
      by apply not_elem_of_nil in Hc.
Qed.

(** ** The script as a whole *)

Section ScriptFacts.

Variable pd : numeric_conversion.
Variable slider_error : Z → Z → string.
Variable plotly_error : figure → string.


(** X17. When the loader returns no frame it has shown exactly one error,
    and the page is the heading, the rule, that error and the warning that
    nothing can be displayed; the script raises nothing and builds no
    control, metric, chart or table, whatever the visitor has set. *)
Theorem main_without_dataset (fs : gmap string file) (ui : controls) :
  snd (load_data pd fs []) = inr None →
  ∃ msg,
    load_data pd fs [] = ([StError msg], inr None)
    ∧ main pd slider_error plotly_error fs ui [] =
      ([StTitle "📊 Dashboard Exploratorio de Vehículos Usados";
        StMarkdown "---";
        Shown (StError msg);
        StWarning "No se pueden mostrar visualizaciones debido a problemas con los datos."],
       inr tt).
Proof.
  intros Hnone.
  destruct (load_data_outcome pd fs [])
    as [(msg & Hfail) | (d & Hok & _)].
  - exists msg. split; [exact Hfail|].
    unfold main, mbind, app_bind, render, run.
    cbn [app]. rewrite Hfail. reflexivity.
  - rewrite Hok in Hnone. done.
Qed.

(** X18. When the table has the three required columns but no row whose
    three required cells all coerce to a number, the loader returns a frame
    without rows and shows no error, and the script raises [ValueError]
    while computing the lower end of the year slider: the page stops after
    the sidebar title and shows neither the warning nor any metric. *)
Theorem main_on_empty_dataset (fs : gmap string file) (t : DataFrame)
    (ui : controls) :
  fs !! csv_path = Some (Table t) →
  numeric_cols ⊆ columns t →
  Forall (λ r, ¬ parsable pd r) (rows t) →
  load_data pd fs [] =
    ([], inr (Some {| columns := columns t; rows := [] |}))
  ∧ main pd slider_error plotly_error fs ui [] =
    ([StTitle "📊 Dashboard Exploratorio de Vehículos Usados";
      StMarkdown "---";
      StTitle "🔧 Filtros";
      StMarkdown "---"],
     inl (ValueError "cannot convert float NaN to integer")).
Proof.
  intros Hfile Hcols Hnone.
  assert (load_data pd fs [] =
          ([], inr (Some {| columns := columns t; rows := [] |}))) as Hload.
  { rewrite (load_data_complete pd fs t [] Hfile Hcols).
    rewrite filter_none; [done|].
    rewrite Forall_forall in Hnone. intros r Hr. by apply Hnone. }
  split; [done|].
  unfold main, sidebar, mbind, app_bind, render, run. cbn [app].
  rewrite Hload. reflexivity.
Qed.

(** X20. When the loader returns a frame whose least and greatest model
    year give the same slider end, as a file of one row or of one year does,
    the script stops at the slider with the exception the slider raises for
    equal ends: the page ends after the sidebar title, and no control,
    metric or chart is built, whatever the visitor has set. *)
Theorem main_on_single_year (fs : gmap string file) (d : DataFrame)
    (year : Z) (ui : controls) :
  load_data pd fs [] = ([], inr (Some d)) →
  min_year d = inr year →
  max_year d = inr year →
  main pd slider_error plotly_error fs ui [] =
  ([StTitle "📊 Dashboard Exploratorio de Vehículos Usados";
    StMarkdown "---";
    StTitle "🔧 Filtros";
    StMarkdown "---"],
   inl (OtherError (slider_error year year))).
Proof.
  intros Hload Hlo Hhi.
  unfold main, sidebar, slider, mbind, app_bind, render, run, eval.
  cbn [app]. rewrite Hload. cbn [fst snd fmap list_fmap app].
  rewrite Hlo, Hhi. by rewrite bool_decide_eq_true_2.
Qed.

End ScriptFacts.

(** ** The added facts on the sample data *)

Lemma load_data_file_missing_witness :
  (∅ : gmap string file) !! csv_path = None
  ∧ load_data digits_only ∅ [] =
    ([StError "Error: Archivo 'vehicles_us.csv' no encontrado en la carpeta 'data'"],
     inr None).
Proof.
  assert ((∅ : gmap string file) !! csv_path = None) as Hfile by reflexivity.
  split; [exact Hfile|].
  exact (load_data_file_missing digits_only ∅ [] Hfile).
Defined.

Lemma load_data_unreadable_witness :
  ({[ csv_path := Unreadable "No columns to parse from file" ]} : gmap string file)
    !! csv_path = Some (Unreadable "No columns to parse from file")
  ∧ load_data digits_only
      {[ csv_path := Unreadable "No columns to parse from file" ]} [] =
    ([StError "Error al cargar datos: No columns to parse from file"], inr None).
Proof.
  assert (({[ csv_path := Unreadable "No columns to parse from file" ]}
             : gmap string file) !! csv_path
          = Some (Unreadable "No columns to parse from file")) as Hfile
    by reflexivity.
  split; [exact Hfile|].
  exact (load_data_unreadable digits_only _ _ [] Hfile).
Defined.

Lemma load_data_keeps_dataset_witness :
  two_listings_files !! csv_path = Some (Table two_listings)
  ∧ Dataset two_listings
  ∧ Forall (λ r, Forall (λ c, ∀ q, cell_at c r = Num q → to_float digits_only q = q)
                   numeric_cols) (rows two_listings)
  ∧ load_data digits_only two_listings_files [] = ([], inr (Some two_listings)).
Proof.
  assert (two_listings_files !! csv_path = Some (Table two_listings)) as Hfile
    by reflexivity.
  assert (Dataset two_listings) as Hds by (by apply (bool_decide_unpack _)).
  assert (Forall (λ r, Forall (λ c, ∀ q, cell_at c r = Num q
                                         → to_float digits_only q = q)
                         numeric_cols) (rows two_listings)) as Hfloat.
  { repeat constructor; intros q _; reflexivity. }
  split; [exact Hfile|]. split; [exact Hds|]. split; [exact Hfloat|].
  exact (load_data_keeps_dataset digits_only two_listings_files two_listings []
           Hfile Hds Hfloat).
Defined.

Lemma load_data_reload_witness :
  load_data digits_only raw_files [] =
    ([], inr (Some {| columns := columns raw_listings;
                      rows := [vehicle (Qc_of_Z 2015) (Qc_of_Z 50000)
                                 (Qc_of_Z 10000) "gas"] |}))
  ∧ ({[ csv_path :=
          Table {| columns := columns raw_listings;
                   rows := [vehicle (Qc_of_Z 2015) (Qc_of_Z 50000)
                              (Qc_of_Z 10000) "gas"] |} ]} : gmap string file)
      !! csv_path
    = Some (Table {| columns := columns raw_listings;
                     rows := [vehicle (Qc_of_Z 2015) (Qc_of_Z 50000)
                                (Qc_of_Z 10000) "gas"] |})
  ∧ load_data digits_only
      {[ csv_path :=
           Table {| columns := columns raw_listings;
                    rows := [vehicle (Qc_of_Z 2015) (Qc_of_Z 50000)
                               (Qc_of_Z 10000) "gas"] |} ]}
      [StError "earlier"] =
    ([StError "earlier"],
     inr (Some {| columns := columns raw_listings;
                  rows := [vehicle (Qc_of_Z 2015) (Qc_of_Z 50000)
                             (Qc_of_Z 10000) "gas"] |})).
Proof.
  set (d := {| columns := columns raw_listings;
               rows := [vehicle (Qc_of_Z 2015) (Qc_of_Z 50000)
                          (Qc_of_Z 10000) "gas"] |}).
  assert (load_data digits_only raw_files [] = ([], inr (Some d))) as Hload
    by reflexivity.
  assert (({[ csv_path := Table d ]} : gmap string file) !! csv_path
          = Some (Table d)) as Hfile by reflexivity.
  split; [exact Hload|]. split; [exact Hfile|].
  exact (load_data_reload digits_only raw_files {[ csv_path := Table d ]} d
           [] [] [StError "earlier"] Hload Hfile).
Defined.

Lemma filtered_df_dataset_witness :
  Dataset two_listings
  ∧ len (filtered_df two_listings diesel_from_2016) = 1%nat
  ∧ Dataset (filtered_df two_listings diesel_from_2016)
  ∧ rows (filtered_df two_listings diesel_from_2016) `sublist_of` rows two_listings
  ∧ (len (filtered_df two_listings diesel_from_2016) ≤ len two_listings)%nat.
Proof.
  assert (Dataset two_listings) as Hds by (by apply (bool_decide_unpack _)).
  split; [exact Hds|]. split; [reflexivity|].
  exact (filtered_df_dataset two_listings diesel_from_2016 Hds).
Defined.

Lemma filtered_df_narrowing_witness :
  (fst (selected_years all_fuels_selected)
   ≤ fst (selected_years diesel_from_2016))%Qc
  ∧ (snd (selected_years diesel_from_2016)
     ≤ snd (selected_years all_fuels_selected))%Qc
  ∧ selected_fuels diesel_from_2016 ⊆ selected_fuels all_fuels_selected
  ∧ selected_conditions diesel_from_2016 ⊆ selected_conditions all_fuels_selected
  ∧ len (filtered_df two_listings all_fuels_selected) = 2%nat
  ∧ len (filtered_df two_listings diesel_from_2016) = 1%nat
  ∧ rows (filtered_df two_listings diesel_from_2016)
      `sublist_of` rows (filtered_df two_listings all_fuels_selected)
  ∧ filtered_df (filtered_df two_listings all_fuels_selected) diesel_from_2016
    = filtered_df two_listings diesel_from_2016.
Proof.
  assert (fst (selected_years all_fuels_selected)
          ≤ fst (selected_years diesel_from_2016))%Qc as Hlo by done.
  assert (snd (selected_years diesel_from_2016)
          ≤ snd (selected_years all_fuels_selected))%Qc as Hhi by done.
  assert (selected_fuels diesel_from_2016 ⊆ selected_fuels all_fuels_selected)
    as Hfuels by (by apply (bool_decide_unpack _)).
  assert (selected_conditions diesel_from_2016
          ⊆ selected_conditions all_fuels_selected) as Hconds by done.
  split; [exact Hlo|]. split; [exact Hhi|]. split; [exact Hfuels|].
  split; [exact Hconds|]. split; [reflexivity|]. split; [reflexivity|].
  exact (filtered_df_narrowing two_listings all_fuels_selected
           diesel_from_2016 Hlo Hhi Hfuels Hconds).
Defined.

Lemma slider_ends_ordered_witness :
  min_year two_listings = inr 2015
  ∧ max_year two_listings = inr 2018
  ∧ 2015 ≤ 2018.
Proof.
  assert (min_year two_listings = inr 2015) as Hlo by reflexivity.
  assert (max_year two_listings = inr 2018) as Hhi by reflexivity.
  split; [exact Hlo|]. split; [exact Hhi|].
  exact (slider_ends_ordered two_listings 2015 2018 Hlo Hhi).
Defined.

Lemma slider_ends_within_one_witness :
  Dataset half_year_listings
  ∧ min_year half_year_listings = inr 2010
  ∧ max_year half_year_listings = inr 2015
  ∧ Forall (λ r, ∀ y, modelYear r = Some y → (0 ≤ y)%Qc)
      (rows half_year_listings)
  ∧ Forall (λ r, ∃ y, modelYear r = Some y
                      ∧ (Qc_of_Z 2010 ≤ y)%Qc ∧ (y < Qc_of_Z (2015 + 1))%Qc)
      (rows half_year_listings).
Proof.
  assert (Dataset half_year_listings) as Hds by (by apply (bool_decide_unpack _)).
  assert (min_year half_year_listings = inr 2010) as Hlo by reflexivity.
  assert (max_year half_year_listings = inr 2015) as Hhi by reflexivity.
  assert (Forall (λ r, ∀ y, modelYear r = Some y → (0 ≤ y)%Qc)
            (rows half_year_listings)) as Hpos.
  { repeat constructor; intros y [= <-]; done. }
  split; [exact Hds|]. split; [exact Hlo|]. split; [exact Hhi|].
  split; [exact Hpos|].
  exact (slider_ends_within_one half_year_listings 2010 2015 Hds Hlo Hhi Hpos).
Defined.

Lemma average_year_in_selected_range_witness :
  Dataset two_listings
  ∧ selected_years all_fuels_selected = (Qc_of_Z 2015, Qc_of_Z 2018)
  ∧ rows (filtered_df two_listings all_fuels_selected) ≠ []
  ∧ ∃ avg_year,
      py_int (series_mean (get_column "model_year"
                (filtered_df two_listings all_fuels_selected))) = inr avg_year
      ∧ 2015 ≤ avg_year ≤ 2018.
Proof.
  assert (Dataset two_listings) as Hds by (by apply (bool_decide_unpack _)).
  assert (selected_years all_fuels_selected = (Qc_of_Z 2015, Qc_of_Z 2018))
    as Hyears by reflexivity.
  assert (rows (filtered_df two_listings all_fuels_selected) ≠ []) as Hrows
    by done.
  split; [exact Hds|]. split; [exact Hyears|]. split; [exact Hrows|].
  exact (average_year_in_selected_range two_listings all_fuels_selected
           2015 2018 Hds Hyears Hrows).
Defined.

Lemma histogram_columns_exist_witness :
  Dataset two_listings
  ∧ figure_columns (fig_hist two_listings (filtered_df two_listings no_fuel_selected))
    ⊆ columns two_listings.
Proof.
  assert (Dataset two_listings) as Hds by (by apply (bool_decide_unpack _)).
  split; [exact Hds|].
  exact (histogram_columns_exist two_listings no_fuel_selected Hds).
Defined.

Lemma scatter_columns_exist_witness :
  Dataset bare_listings
  ∧ ¬ (figure_columns
         (fig_scatter bare_listings (filtered_df bare_listings no_fuel_selected))
       ⊆ columns (figure_frame
           (fig_scatter bare_listings (filtered_df bare_listings no_fuel_selected)))).
Proof.
  assert (Dataset bare_listings) as Hds by (by apply (bool_decide_unpack _)).
  split; [exact Hds|]. intros Hsub.
  apply (scatter_columns_exist bare_listings no_fuel_selected Hds) in Hsub.
  revert Hsub. by apply (bool_decide_unpack _).
Defined.


Lemma main_without_dataset_witness :
  snd (load_data digits_only no_year_files []) = inr None
  ∧ ∃ msg,
      load_data digits_only no_year_files [] = ([StError msg], inr None)
      ∧ main digits_only sample_slider_error sample_plotly_error
          no_year_files untouched [] =
        ([StTitle "📊 Dashboard Exploratorio de Vehículos Usados";
          StMarkdown "---";
          Shown (StError msg);
          StWarning "No se pueden mostrar visualizaciones debido a problemas con los datos."],
         inr tt).
Proof.
  assert (snd (load_data digits_only no_year_files []) = inr None) as Hnone
    by reflexivity.
  split; [exact Hnone|].
  exact (main_without_dataset digits_only sample_slider_error sample_plotly_error
           no_year_files untouched Hnone).
Defined.

Lemma main_on_empty_dataset_witness :
  unusable_files !! csv_path = Some (Table unusable_listings)
  ∧ numeric_cols ⊆ columns unusable_listings
  ∧ Forall (λ r, ¬ parsable digits_only r) (rows unusable_listings)
  ∧ snd (main digits_only sample_slider_error sample_plotly_error
           unusable_files untouched []) =
    inl (ValueError "cannot convert float NaN to integer").
Proof.
  assert (unusable_files !! csv_path = Some (Table unusable_listings)) as Hfile
    by reflexivity.
  assert (numeric_cols ⊆ columns unusable_listings) as Hcols
    by (by apply (bool_decide_unpack _)).
  assert (Forall (λ r, ¬ parsable digits_only r) (rows unusable_listings))
    as Hnone by (by apply (bool_decide_unpack _)).
  split; [exact Hfile|]. split; [exact Hcols|]. split; [exact Hnone|].
  destruct (main_on_empty_dataset digits_only sample_slider_error
              sample_plotly_error unusable_files unusable_listings
              untouched Hfile Hcols Hnone) as [_ Hmain].
  rewrite Hmain. reflexivity.
Defined.

Lemma main_on_single_year_witness :
  load_data digits_only bare_files [] = ([], inr (Some bare_listings))
  ∧ min_year bare_listings = inr 2015
  ∧ max_year bare_listings = inr 2015
  ∧ snd (main digits_only sample_slider_error sample_plotly_error
           bare_files untouched []) =
    inl (OtherError (sample_slider_error 2015 2015)).
Proof.
  assert (load_data digits_only bare_files [] = ([], inr (Some bare_listings)))
    as Hload by reflexivity.
  assert (min_year bare_listings = inr 2015) as Hlo by reflexivity.
  assert (max_year bare_listings = inr 2015) as Hhi by reflexivity.
  split; [exact Hload|]. split; [exact Hlo|]. split; [exact Hhi|].
  rewrite (main_on_single_year digits_only sample_slider_error
             sample_plotly_error bare_files bare_listings 2015 untouched
             Hload Hlo Hhi).
  reflexivity.
Defined.

(** ** The thousands separators *)

Lemma commas_short (l : list Ascii.ascii) :
  (length l ≤ 3)%nat → commas l = l.
Proof. destruct l as [|a [|b [|c [|d rest]]]]; cbn; [done..|lia]. Qed.

Lemma commas_strip (n : nat) (l : list Ascii.ascii) :
  (length l ≤ n)%nat → comma ∉ l →
  filter (λ a, a ≠ comma) (commas l) = l.
Proof.
  revert l. induction (lt_wf n) as [n _ IH]. intros l Hlen Hno.
  destruct l as [|a [|b [|c [|d rest]]]];
    try (rewrite commas_short by (cbn; lia); apply filter_all, Forall_forall;
         by intros x Hx ->).
  change (commas (a :: b :: c :: d :: rest))
    with (a :: b :: c :: comma :: commas (d :: rest)).
  rewrite !not_elem_of_cons in Hno. destruct Hno as (Ha & Hb & Hc & Hd & Hrest).
  rewrite !filter_cons_True by done.
  rewrite filter_cons_False by (intros Hne; by apply Hne).
  do 3 f_equal. apply (IH (length (d :: rest))).
  - cbn [length] in *. lia.
  - done.
  - rewrite not_elem_of_cons. done.
Qed.

Lemma commas_length (n : nat) (l : list Ascii.ascii) :
  (length l ≤ n)%nat →
  length (commas l) = (length l + (length l - 1) / 3)%nat.
Proof.
  revert l. induction (lt_wf n) as [n _ IH]. intros l Hlen.
  destruct l as [|a [|b [|c [|d rest]]]]; [done..|].
  change (commas (a :: b :: c :: d :: rest))
    with (a :: b :: c :: comma :: commas (d :: rest)).
  cbn [length] in *. rewrite (IH (length (d :: rest))); cbn [length]; [|lia..].
  replace (S (S (S (S (length rest)))) - 1)%nat
    with (length rest + 1 * 3)%nat by lia.
  rewrite Nat.div_add by done.
  replace (S (length rest) - 1)%nat with (length rest) by lia. lia.
Qed.

Lemma pretty_N_char_not_comma (x : N) : pretty_N_char x ≠ comma.
Proof. unfold pretty_N_char. by repeat case_match. Qed.

Lemma pretty_N_go_no_comma (x : N) (s : string) :
  comma ∉ String.list_ascii_of_string s →
  comma ∉ String.list_ascii_of_string (pretty_N_go x s).
Proof.
  revert s. induction (N.lt_wf_0 x) as [x _ IH]; intros s Hs.
  assert (x = 0 ∨ 0 < x)%N as [->|Hpos] by lia.
  - by rewrite pretty_N_go_0.
  - rewrite pretty_N_go_step by done. apply IH.
    { by apply N.div_lt. }
    cbn. rewrite not_elem_of_cons. split; [|done].
    intros Heq. by apply (pretty_N_char_not_comma (x `mod` 10)%N).
Qed.

Lemma pretty_N_no_comma (x : N) :
  comma ∉ String.list_ascii_of_string (pretty x).
Proof.
  unfold pretty, pretty_N. case_decide.
  - cbn. rewrite not_elem_of_cons. split; [done|]. apply not_elem_of_nil.
  - apply pretty_N_go_no_comma. cbn. apply not_elem_of_nil.
Qed.

Lemma list_ascii_of_string_app (s1 s2 : string) :
  String.list_ascii_of_string (s1 +:+ s2) =
  String.list_ascii_of_string s1 ++ String.list_ascii_of_string s2.
Proof.
  induction s1 as [|a s1 IH]; [done|].
  change (String a s1 +:+ s2) with (String a (s1 +:+ s2)).
  cbn [String.list_ascii_of_string]. by rewrite IH.
Qed.

Lemma pretty_Z_no_comma (z : Z) :
  comma ∉ String.list_ascii_of_string (pretty z).
Proof.
  unfold pretty, pretty_Z. destruct z as [|p|p].
  - cbn. rewrite not_elem_of_cons. split; [done|]. apply not_elem_of_nil.
  - apply pretty_N_no_comma.
  - rewrite list_ascii_of_string_app, not_elem_of_app. split.
    + cbn. rewrite not_elem_of_cons. split; [done|]. apply not_elem_of_nil.
    + apply pretty_N_no_comma.
Qed.

(** X19. The text of a formatted mean is the sign and the decimal digits
    of the rounded magnitude with separators put in between: taking the
    separators out gives back exactly the sign and the digits, and the
    number of characters added is the number of digits minus one, divided
    by three. *)
Theorem format_comma_0f_digits (q : Qc) :
  let sign := if decide (q < 0)%Qc then "-" else String.EmptyString in
  let digits :=
    pretty (round_half_even (if decide (q < 0)%Qc then (- q)%Qc else q)) in
  filter (λ a, a ≠ comma) (String.list_ascii_of_string (format_comma_0f (Some q)))
  = String.list_ascii_of_string (sign +:+ digits)
  ∧ length (String.list_ascii_of_string (format_comma_0f (Some q)))
    = (length (String.list_ascii_of_string (sign +:+ digits))
       + (length (String.list_ascii_of_string digits) - 1) / 3)%nat.
Proof.
  intros sign digits. unfold format_comma_0f. fold sign. fold digits.
  rewrite !list_ascii_of_string_app, String.list_ascii_of_string_of_list_ascii.
  pose proof (pretty_Z_no_comma
    (round_half_even (if decide (q < 0)%Qc then (- q)%Qc else q))) as Hno.
  fold digits in Hno. set (ds := String.list_ascii_of_string digits) in *.
  split.
  - rewrite filter_app, filter_reverse.
    rewrite (commas_strip (length (reverse ds)))
      by (done || by rewrite elem_of_reverse).
    rewrite reverse_involutive. f_equal.
    unfold sign. case_decide; [|done]. by apply filter_all, Forall_forall; intros x [->|[]%not_elem_of_nil]%elem_of_cons.
  - rewrite !length_app, length_reverse.
    rewrite (commas_length (length (reverse ds))) by done.
    rewrite length_reverse. lia.
Qed.
